(** * A shallow embedding of the sampler benchmarking harness

    The development follows the two Python modules of the repository:
    [Utilities.py] (environment resolver and benchmark runner) and
    [sampler.py] (result parsing, the representative statistic, the
    comparison formatter and the report tables).

    Python floats are IEEE 754 binary64 values; they are modelled with the
    executable specification [SpecFloat] of the standard library at
    precision 53 and maximal exponent 1024.  Exceptions are modelled with
    an error monad whose errors are the Python exception classes. *)

From Stdlib Require Import ZArith List String Ascii Bool Lia.
From Stdlib Require Import Floats.SpecFloat.
From Stdlib Require Import Numbers.DecimalString Numbers.DecimalPos.
From stdpp Require Import base option list gmap strings sorting.

Local Open Scope Z_scope.

Set Warnings "-register-all".

(** ** Exceptions and the error monad *)

Inductive exception : Type :=
| ValueError
| IndexError
| KeyError
| TypeError
| RuntimeError
| FileNotFoundError
| NotADirectoryError
| StatisticsError
| JSONDecodeError
| ZeroDivisionError.

Inductive result (A : Type) : Type :=
| Ok (a : A)
| Raise (e : exception).

Arguments Ok {A} a.
Arguments Raise {A} e.

#[global] Instance exception_eq_dec : EqDecision exception.
Proof. solve_decision. Defined.

#[global] Instance result_ret : MRet result := fun A a => Ok a.

#[global] Instance result_bind : MBind result := fun A B f r =>
  match r with
  | Ok a => f a
  | Raise e => Raise e
  end.

#[global] Instance result_fmap : FMap result := fun A B f r =>
  match r with
  | Ok a => Ok (f a)
  | Raise e => Raise e
  end.

(** The value of a computation, forgetting which exception was raised. *)
Definition value_of {A} (r : result A) : option A :=
  match r with
  | Ok a => Some a
  | Raise _ => None
  end.

Definition raises {A} (r : result A) : Prop := value_of r = None.

(** ** Python strings *)

Module PyStr.

(** [s.split(sep)] for a one-character separator. *)
Fixpoint split (sep : ascii) (s : string) : list string :=
  match s with
  | EmptyString => [EmptyString]
  | String c s' =>
      if Ascii.eqb c sep then EmptyString :: split sep s'
      else match split sep s' with
           | [] => [String c EmptyString]
           | w :: ws => String c w :: ws
           end
  end.

Fixpoint mem (c : ascii) (chars : string) : bool :=
  match chars with
  | EmptyString => false
  | String d chars' => Ascii.eqb c d || mem c chars'
  end.

(** [s.lstrip(chars)] *)
Fixpoint lstrip (chars : string) (s : string) : string :=
  match s with
  | EmptyString => EmptyString
  | String c s' => if mem c chars then lstrip chars s' else s
  end.

(** [s.rstrip(chars)] *)
Fixpoint rstrip (chars : string) (s : string) : string :=
  match s with
  | EmptyString => EmptyString
  | String c s' =>
      match rstrip chars s' with
      | EmptyString => if mem c chars then EmptyString else String c EmptyString
      | r => String c r
      end
  end.

(** [s.strip(chars)] *)
Definition strip (chars : string) (s : string) : string :=
  rstrip chars (lstrip chars s).

(** [s.startswith(p)] *)
Definition startswith (p s : string) : bool := String.prefix p s.

(** The white space that [int] skips on both sides of a literal
    (characters are code points below 256). *)
Definition whitespace : string :=
  String (ascii_of_nat 9) (String (ascii_of_nat 10) (String (ascii_of_nat 11)
 (String (ascii_of_nat 12) (String (ascii_of_nat 13) (String (ascii_of_nat 32)
 (String (ascii_of_nat 133) (String (ascii_of_nat 160) EmptyString))))))).

Definition digit_value (c : ascii) : option Z :=
  let n := Z.of_nat (nat_of_ascii c) in
  if (48 <=? n) && (n <=? 57) then Some (n - 48) else None.

(** Digits with single underscores between them; [acc] is the value read
    so far and [after_digit] tells whether the previous character was a
    digit (an underscore is legal only there, and not at the end). *)
Fixpoint int_digits (acc : Z) (after_digit : bool) (s : string) : option Z :=
  match s with
  | EmptyString => if after_digit then Some acc else None
  | String c s' =>
      match digit_value c with
      | Some d => int_digits (10 * acc + d) true s'
      | None =>
          if Ascii.eqb c "_"%char && after_digit
          then match s' with
               | EmptyString => None
               | String c' _ =>
                   match digit_value c' with
                   | Some _ => int_digits acc false s'
                   | None => None
                   end
               end
          else None
      end
  end.

(** [int(s)] in base ten. *)
Definition int (s : string) : result Z :=
  let body := strip whitespace s in
  let signed :=
    match body with
    | String "-"%char rest => (-1, rest)
    | String "+"%char rest => (1, rest)
    | _ => (1, body)
    end in
  match int_digits 0 false (snd signed) with
  | Some n => Ok (fst signed * n)
  | None => Raise ValueError
  end.

(** [str(n)] for an integer. *)
Definition of_int (n : Z) : string :=
  match n with
  | Z0 => "0"
  | Zpos p => NilZero.string_of_uint (Pos.to_uint p)
  | Zneg p => String "-"%char (NilZero.string_of_uint (Pos.to_uint p))
  end.

End PyStr.

(** ** Paths *)

Module PurePath.

(** Index of the last ['.'] of a name, as [name.rfind(".")]. *)
Fixpoint rfind_dot (s : string) (i : nat) : option nat :=
  match s with
  | EmptyString => None
  | String c s' =>
      match rfind_dot s' (S i) with
      | Some j => Some j
      | None => if Ascii.eqb c "."%char then Some i else None
      end
  end.

(** [PurePath(name).stem]: the final component without its last suffix;
    a leading or a trailing dot does not start a suffix. *)
Definition stem (name : string) : string :=
  match rfind_dot name 0 with
  | Some i =>
      if (0 <? i)%nat && (i <? String.length name - 1)%nat
      then String.substring 0 i name
      else name
  | None => name
  end.

End PurePath.

(** ** File names of result files ([Benchmark.parse_file_name]) *)

Definition parse_file_name (file_name : string)
  : result (string * string * (Z * Z)) :=
  match PyStr.split "-" file_name with
  | [target; nuitka_version; python_version] =>
      let py_ver_split := PyStr.split "." python_version in
      match py_ver_split with
      | v0 :: v1 :: _ =>
          major ← PyStr.int v0;
          minor ← PyStr.int v1;
          Ok (target, nuitka_version, (major, minor))
      | [v0] => _ ← PyStr.int v0; Raise IndexError
      | [] => Raise IndexError
      end
  | _ => Raise ValueError
  end.

(** ** Python floats: IEEE 754 binary64 *)

Module Float.

Definition prec : Z := 53.
Definition emax : Z := 1024.

Definition float : Type := spec_float.

Definition zero : float := S754_zero false.
Definition nan : float := S754_nan.
Definition infinity : float := S754_infinity false.

(** [float(n)] for an integer [n]. *)
Definition of_Z (n : Z) : float := binary_normalize prec emax n 0 false.

Definition add (x y : float) : float := SFadd prec emax x y.
Definition sub (x y : float) : float := SFsub prec emax x y.
Definition mul (x y : float) : float := SFmul prec emax x y.

(** [x < y], [x == y] and [x > y] *)
Definition ltb (x y : float) : bool := SFltb x y.
Definition eqb (x y : float) : bool := SFeqb x y.
Definition gtb (x y : float) : bool := SFltb y x.

Definition is_zero (x : float) : bool :=
  match x with S754_zero _ => true | _ => false end.

Definition is_finite (x : float) : bool :=
  match x with S754_zero _ | S754_finite _ _ _ => true | _ => false end.

Definition is_nan (x : float) : bool :=
  match x with S754_nan => true | _ => false end.

(** [x / y]: Python raises on a zero divisor instead of returning an
    infinity or a NaN. *)
Definition truediv (x y : float) : result float :=
  if is_zero y then Raise ZeroDivisionError else Ok (SFdiv prec emax x y).

(** *** Fixed-point formatting, [format(x, ".2f")] *)

(** [n / d] rounded to the nearest integer, ties to even ([0 <= n], [0 < d]). *)
Definition round_half_even_div (n d : Z) : Z :=
  let q := n / d in
  let r := n mod d in
  match 2 * r ?= d with
  | Lt => q
  | Gt => q + 1
  | Eq => if Z.even q then q else q + 1
  end.

(** The exact value [m * 2^e], in hundredths, rounded to an integer. *)
Definition hundredths (m : positive) (e : Z) : Z :=
  if 0 <=? e then Zpos m * 2 ^ e * 100
  else round_half_even_div (Zpos m * 100) (2 ^ (- e)).

Definition digit_char (d : Z) : ascii := ascii_of_nat (Z.to_nat (48 + d)).

Definition fixed2 (h : Z) : string :=
  PyStr.of_int (h / 100) +:+ "." +:+
  String (digit_char (h mod 100 / 10)) (String (digit_char (h mod 10)) "").

Definition sign_prefix (s : bool) : string := if s then "-" else "".

Definition format_2f (x : float) : string :=
  match x with
  | S754_nan => "nan"
  | S754_infinity s => sign_prefix s +:+ "inf"
  | S754_zero s => sign_prefix s +:+ "0.00"
  | S754_finite s m e => sign_prefix s +:+ fixed2 (hundredths m e)
  end.

(** *** The builtins [min] and [max] *)

(** [min(a, b)]: the first argument unless the second is smaller. *)
Definition min2 (a b : float) : float := if ltb b a then b else a.

(** [min(l)]: the running minimum is replaced only by a strictly smaller
    sample; an empty sequence raises. *)
Definition min (l : list float) : result float :=
  match l with
  | [] => Raise ValueError
  | x :: xs => Ok (fold_left (fun cur y => if ltb y cur then y else cur) xs x)
  end.

(** [max(l)] *)
Definition max (l : list float) : result float :=
  match l with
  | [] => Raise ValueError
  | x :: xs => Ok (fold_left (fun cur y => if gtb y cur then y else cur) xs x)
  end.

(** *** [statistics.mean] *)

(** An exact dyadic number [mant * 2^expo]. *)
Definition dyadic : Type := Z * Z.

Definition dyadic_add (a b : dyadic) : dyadic :=
  let e := Z.min (snd a) (snd b) in
  (fst a * 2 ^ (snd a - e) + fst b * 2 ^ (snd b - e), e).

(** [x.as_integer_ratio()] of a finite float, as a dyadic number. *)
Definition exact (x : float) : dyadic :=
  match x with
  | S754_finite s m e => (cond_Zopp s (Zpos m), e)
  | _ => (0, 0)
  end.

(** [float(Fraction(mant * 2^expo, n))]: the quotient rounded once, to
    nearest with ties to even ([0 < n]). *)
Definition round_quotient (a : dyadic) (n : Z) : float :=
  match fst a with
  | Z0 => zero
  | _ =>
      let '(mz, ez, lz) :=
        SFdiv_core_binary prec emax (Z.abs (fst a)) (snd a) n 0 in
      binary_round_aux prec emax (fst a <? 0) mz ez lz
  end.

(** [statistics.mean(l)]: the samples are summed exactly as fractions and
    the quotient by their number is converted to a float once.  When a
    sample is an infinity or a NaN, the total is the float sum of those
    samples alone.  An empty sequence raises. *)
Definition mean (l : list float) : result float :=
  match l with
  | [] => Raise StatisticsError
  | _ =>
      let n := Z.of_nat (length l) in
      if forallb is_finite l
      then Ok (round_quotient (fold_left dyadic_add (map exact l) (0, 0)) n)
      else Ok (SFdiv prec emax
                 (fold_left add (filter (fun x => negb (is_finite x)) l) zero)
                 (of_Z n))
  end.

End Float.

Abbreviation float := Float.float.

(** ** Parsed JSON documents *)

(** The value [json.load] returns.  The members of an object are kept in
    the order of the document; a number is a float, as a timing is (an
    integer literal, which loads as an [int], is not represented). *)
Inductive json : Type :=
| JNull
| JBool (b : bool)
| JNumber (x : float)
| JString (s : string)
| JArray (items : list json)
| JObject (members : list (string * json)).

(** Lookup in the dictionary built from the members of an object: a later
    member replaces an earlier one with the same key. *)
Fixpoint dict_get (key : string) (members : list (string * json)) : option json :=
  match members with
  | [] => None
  | (k, v) :: rest =>
      match dict_get key rest with
      | Some v' => Some v'
      | None => if String.eqb k key then Some v else None
      end
  end.

(** [j[key]] for a string key: only a dictionary can be indexed by a string. *)
Definition getitem (j : json) (key : string) : result json :=
  match j with
  | JObject members =>
      match dict_get key members with
      | Some v => Ok v
      | None => Raise KeyError
      end
  | _ => Raise TypeError
  end.

(** ** Result records ([sampler.py], and the same classes in [Utilities.py]) *)

(** The dataclass declares [warmup] and [benchmark] as lists of floats, but
    nothing checks it: the fields hold whatever the document holds. *)
Record Stats : Type := {
  name : string;
  warmup : json;
  benchmark : json
}.

Record Benchmark : Type := {
  target : string;
  nuitka_version : string;
  python_version : Z * Z;
  file_json : json;
  nuitka_stats : Stats;
  cpython_stats : Stats;
  benchmark_name : string
}.

Definition parse_stats (stats : json) : result (Stats * Stats) :=
  nuitka ← getitem stats "nuitka";
  cpython ← getitem stats "cpython";
  nuitka_warmup ← getitem nuitka "warmup";
  nuitka_benchmark ← getitem nuitka "benchmark";
  cpython_warmup ← getitem cpython "warmup";
  cpython_benchmark ← getitem cpython "benchmark";
  Ok ({| name := "nuitka"; warmup := nuitka_warmup; benchmark := nuitka_benchmark |},
      {| name := "cpython"; warmup := cpython_warmup; benchmark := cpython_benchmark |}).

(** A regular file of the results tree: its name, its size and what
    [json.load] makes of its content ([None] when it is not JSON). *)
Record file : Type := {
  file_name : string;
  st_size : Z;
  loaded : option json
}.

Definition from_path (file_path : file) (bm_name : string) : result Benchmark :=
  if negb (0 <? st_size file_path) then Raise FileNotFoundError
  else
    match loaded file_path with
    | None => Raise JSONDecodeError
    | Some doc =>
        file_info ← parse_file_name (PurePath.stem (file_name file_path));
        parsed_stats ← parse_stats doc;
        Ok {| target := file_info.1.1;
              nuitka_version := file_info.1.2;
              python_version := file_info.2;
              file_json := doc;
              nuitka_stats := parsed_stats.1;
              cpython_stats := parsed_stats.2;
              benchmark_name := PyStr.strip "bm_" bm_name |}
    end.

(** ** The representative statistic ([Benchmark._calculate_stats]) *)

(** A sample of a timing list.  A JSON boolean is Python's [bool], which
    compares and averages as the integer 1 or 0. *)
Definition as_number (j : json) : result float :=
  match j with
  | JNumber x => Ok x
  | JBool b => Ok (Float.of_Z (if b then 1 else 0))
  | _ => Raise TypeError
  end.

Fixpoint as_numbers (l : list json) : result (list float) :=
  match l with
  | [] => Ok []
  | j :: rest => x ← as_number j; xs ← as_numbers rest; Ok (x :: xs)
  end.

(** The samples of a phase; anything but an array of numbers makes the
    statistic raise. *)
Definition samples (j : json) : result (list float) :=
  match j with
  | JArray items => as_numbers items
  | _ => Raise TypeError
  end.

(** [l[b:]] for a boolean [b], which slices from 1 when true, from 0 when
    false. *)
Definition slice_from (b : bool) (l : list float) : list float :=
  skipn (if b then 1 else 0)%nat l.

(** [l[0]] after [min(l)] succeeded, so that [l] is not empty. *)
Definition first (l : list float) : float := hd Float.nan l.

Definition _calculate_stats (results : Stats) : result float :=
  ws ← samples (warmup results);
  min_w ← Float.min ws;
  let is_warmup_skewed := Float.eqb min_w (first ws) in
  bs ← samples (benchmark results);
  min_b ← Float.min bs;
  let is_benchmark_skewed := Float.eqb min_b (first bs) in
  warmup ← Float.mean (slice_from is_warmup_skewed ws);
  benchmark ← Float.mean (slice_from is_benchmark_skewed bs);
  Ok (Float.min2 warmup benchmark).

Definition calculate_nuitka_stats (b : Benchmark) : result string :=
  Float.format_2f <$> _calculate_stats (nuitka_stats b).

Definition calculate_cpython_stats (b : Benchmark) : result string :=
  Float.format_2f <$> _calculate_stats (cpython_stats b).

(** ** The comparison formatter ([format_benchmark_stat]) *)

Definition hundred : float := Float.of_Z 100.

Definition format_benchmark_stat (nuitka cpython : float) : result string :=
  if Float.ltb nuitka cpython then
    ratio ← Float.truediv cpython nuitka;
    let percentage := Float.sub (Float.mul ratio hundred) hundred in
    Ok (Float.format_2f nuitka +:+ " +[green]" +:+ Float.format_2f percentage +:+ "%[/green]")
  else if Float.gtb nuitka cpython then
    ratio ← Float.truediv nuitka cpython;
    let percentage := Float.sub (Float.mul ratio hundred) hundred in
    Ok (Float.format_2f nuitka +:+ " -[red]" +:+ Float.format_2f percentage +:+ "%[/red]")
  else
    Ok (Float.format_2f nuitka).

(** ** The aggregator ([sampler.py], module level) *)

(** An entry of the results tree, in the order [iterdir] yields them. *)
Inductive entry : Type :=
| RegularFile (f : file)
| Directory (dir_name : string) (children : list entry)
| Special (special_name : string).

Definition entry_name (e : entry) : string :=
  match e with
  | RegularFile f => file_name f
  | Directory n _ => n
  | Special n => n
  end.

Definition is_dir (e : entry) : bool :=
  match e with Directory _ _ => true | _ => false end.

(** [p.iterdir()], where [p] may not exist. *)
Definition iterdir (p : option entry) : result (list entry) :=
  match p with
  | Some (Directory _ children) => Ok children
  | Some (RegularFile _) => Raise NotADirectoryError
  | Some (Special _) | None => Raise FileNotFoundError
  end.

(** [p / name] *)
Definition child (p : entry) (name : string) : option entry :=
  match p with
  | Directory _ children =>
      List.find (fun e => String.eqb (entry_name e) name) children
  | _ => None
  end.

Abbreviation container := (gmap (Z * Z) (list Benchmark)).

(** [results_container.setdefault(b.python_version, []).append(b)] *)
Definition add_result (b : Benchmark) (c : container) : container :=
  <[python_version b := default [] (c !! python_version b) ++ [b]]> c.

Fixpoint scan_date (bm_name : string) (results : list entry) (c : container)
  : result container :=
  match results with
  | [] => Ok c
  | RegularFile f :: rest =>
      benchmark_result ← from_path f bm_name;
      scan_date bm_name rest (add_result benchmark_result c)
  | _ :: rest => scan_date bm_name rest c
  end.

Fixpoint scan_results (bm_name : string) (dates : list entry) (c : container)
  : result container :=
  match dates with
  | [] => Ok c
  | Directory _ results :: rest =>
      c' ← scan_date bm_name results c;
      scan_results bm_name rest c'
  | _ :: rest => scan_results bm_name rest c
  end.

Fixpoint scan_benchmarks (items : list entry) (c : container) : result container :=
  match items with
  | [] => Ok c
  | benchmark_item :: rest =>
      if is_dir benchmark_item && negb (PyStr.startswith "bm_" (entry_name benchmark_item))
      then scan_benchmarks rest c
      else
        dates ← iterdir (child benchmark_item "results");
        c' ← scan_results (entry_name benchmark_item) dates c;
        scan_benchmarks rest c'
  end.

(** The first loop of the script, from an empty [results_container]. *)
Definition results_container (benchmark_directory : option entry) : result container :=
  items ← iterdir benchmark_directory;
  scan_benchmarks items ∅.

(** Tuples of two integers compare lexicographically. *)
Definition version_le (a b : Z * Z) : Prop :=
  a.1 < b.1 ∨ (a.1 = b.1 ∧ a.2 ≤ b.2).

#[global] Instance version_le_dec a b : Decision (version_le a b).
Proof. unfold version_le. apply _. Defined.

(** The order of [sorted(..., key=lambda x: x[0], reverse=True)]. *)
Definition newer_first (x y : (Z * Z) * list Benchmark) : Prop :=
  version_le y.1 x.1.

#[global] Instance newer_first_dec x y : Decision (newer_first x y).
Proof. unfold newer_first. apply _. Defined.

Definition sorted_results (c : container) : list ((Z * Z) * list Benchmark) :=
  merge_sort newer_first (map_to_list c).

Record Table : Type := {
  title : string;
  columns : list string;
  rows : list (list string)
}.

(** [f"{python_version[0]}.{python_version[1]}"] *)
Definition version_label (v : Z * Z) : string :=
  PyStr.of_int v.1 +:+ "." +:+ PyStr.of_int v.2.

Definition table_row (v : Z * Z) (b : Benchmark) : result (list string) :=
  cpython ← calculate_cpython_stats b;
  nuitka ← calculate_nuitka_stats b;
  Ok [benchmark_name b; cpython; nuitka; version_label v].

Fixpoint table_rows (v : Z * Z) (benchmarks : list Benchmark)
  : result (list (list string)) :=
  match benchmarks with
  | [] => Ok []
  | b :: rest => r ← table_row v b; rs ← table_rows v rest; Ok (r :: rs)
  end.

Definition bench_table (v : Z * Z) (benchmarks : list Benchmark) : result Table :=
  rs ← table_rows v benchmarks;
  Ok {| title := "Benchmarks";
        columns := ["Benchmark"; "CPython"; "Nuitka Release"; "Python Version"];
        rows := rs |}.

(** The second loop: the tables printed so far, and how the loop ended. *)
Fixpoint print_tables (groups : list ((Z * Z) * list Benchmark))
  : list Table * result unit :=
  match groups with
  | [] => ([], Ok tt)
  | (v, benchmarks) :: rest =>
      match bench_table v benchmarks with
      | Ok t => let '(printed, outcome) := print_tables rest in (t :: printed, outcome)
      | Raise e => ([], Raise e)
      end
  end.

(** The whole script: what it prints, and whether it raised. *)
Definition sampler (benchmark_directory : option entry) : list Table * result unit :=
  match results_container benchmark_directory with
  | Ok c => print_tables (sorted_results c)
  | Raise e => ([], Raise e)
  end.

(** ** The benchmark runner and the environment resolver ([Utilities.py]) *)

Module Utilities.

(** *** Processes *)

(** What one [subprocess.run] of the benchmark shows: the clock when the
    [Timer] is entered, the exit code, and the clock when it is left. *)
Record completed : Type := {
  clock_enter : float;
  returncode : Z;
  clock_exit : float
}.

(** The host answers the [k]-th run of a command; every run completes and
    returns an exit code. *)
Definition host : Type := list string -> nat -> completed.

(** A computation that runs subprocesses: from the number of runs made so
    far to an outcome and the number of runs made then. *)
Definition proc (A : Type) : Type := nat -> result A * nat.

#[global] Instance proc_ret : MRet proc := fun A a k => (Ok a, k).

#[global] Instance proc_bind : MBind proc := fun A B f m k =>
  match m k with
  | (Ok a, k') => f a k'
  | (Raise e, k') => (Raise e, k')
  end.

Definition lift {A} (r : result A) : proc A := fun k => (r, k).

(** [Timer.time_taken] after the [with] block *)
Definition time_taken (r : completed) : float :=
  Float.sub (clock_exit r) (clock_enter r).

(** One pass of either loop: the run is timed, and a non-zero exit code
    raises inside the [with] block. *)
Definition timed_run (h : host) (command : list string) : proc float :=
  fun k =>
    let res := h command k in
    if decide (returncode res ≠ 0) then (Raise RuntimeError, S k)
    else (Ok (time_taken res), S k).

(** [for _ in range(n)]: each pass appends its time to [acc]. *)
Fixpoint timed_loop (h : host) (command : list string) (n : nat) (acc : list float)
  : proc (list float) :=
  match n with
  | O => mret acc
  | S n' =>
      t ← timed_run h command;
      timed_loop h command n' (acc ++ [t])
  end.

(** [if max(l) == l[0]: l.pop(0)] *)
Definition trim_warmup (l : list float) : result (list float) :=
  m ← Float.max l;
  Ok (if Float.eqb m (first l) then tl l else l).

Record timings : Type := {
  warmup : list float;
  benchmark : list float
}.

(** [run_command[type]] *)
Definition run_command (cwd python_executable type : string)
  : result (list string) :=
  if String.eqb type "Nuitka"
  then Ok [cwd +:+ "/run_benchmark.dist/run_benchmark.exe"]
  else if String.eqb type "CPython"
  then Ok [python_executable; "run_benchmark.py"]
  else Raise KeyError.

Definition run_benchmark (h : host) (cwd python_executable : string)
    (iterations : Z) (type : string) : proc timings :=
  command ← lift (run_command cwd python_executable type);
  warmup ← timed_loop h command (Z.to_nat iterations) [];
  warmup ← lift (trim_warmup warmup);
  benchmark ← timed_loop h command (Z.to_nat iterations) [];
  mret {| warmup := warmup; benchmark := benchmark |}.

(** *** Virtual environments *)

(** A path: its anchor (empty when the path is relative) and its parts. *)
Record Path : Type := {
  anchor : string;
  parts : list string
}.

#[global] Instance Path_eq_dec : EqDecision Path.
Proof. solve_decision. Defined.

#[global] Instance Path_countable : Countable Path.
Proof.
  apply (inj_countable' (fun p => (anchor p, parts p))
                        (fun x => {| anchor := x.1; parts := x.2 |})).
  intros []; reflexivity.
Defined.

Definition relative (name : string) : Path := {| anchor := ""; parts := [name] |}.

(** [p / name] *)
Definition joinpath (p : Path) (name : string) : Path :=
  {| anchor := anchor p; parts := parts p ++ [name] |}.

(** The separator of the host, a backslash. *)
Definition sep : string := String (ascii_of_nat 92) EmptyString.

(** [str(p)] *)
Definition to_string (p : Path) : string :=
  anchor p +:+ String.concat sep (parts p).

(** The file system as the resolver sees it: the working directory and
    the set of absolute paths that exist. *)
Record disk : Type := {
  cwd : Path;
  existing : gset Path
}.

(** [p.resolve()]: a relative path is taken from the working directory
    (links and dots are not followed). *)
Definition resolve (d : disk) (p : Path) : Path :=
  if String.eqb (anchor p) "" then
    {| anchor := anchor (cwd d); parts := parts (cwd d) ++ parts p |}
  else p.

(** [p.exists()] *)
Definition path_exists (d : disk) (p : Path) : bool :=
  bool_decide (resolve d p ∈ existing d).

Section Resolver.

(** [sys.executable], [sys.prefix] and [sys.base_prefix] *)
Variable executable : Path.
Variables prefix base_prefix : string.

(** [subprocess.run(command)]: the exit code and the disk afterwards. *)
Variable run : string -> disk -> Z * disk.

Definition is_in_venv : bool := negb (String.eqb prefix base_prefix).

Definition resolve_venv_path (d : disk) : result Path * disk :=
  let resolved_path := resolve d executable in
  if is_in_venv then (Ok resolved_path, d)
  else
    let '(code, d') := run (to_string resolved_path +:+ " -m venv venv") d in
    if decide (code ≠ 0) then (Raise RuntimeError, d')
    else
      let new_venv_path := relative "venv" in
      if path_exists d' new_venv_path
      then (Ok (resolve d' (joinpath (joinpath new_venv_path "Scripts") "python.exe")), d')
      else (Raise FileNotFoundError, d').

Definition create_venv_with_version (version : string) (d : disk)
  : result Path * disk :=
  let '(code, d') :=
    run ("py -" +:+ version +:+ " -m venv " +:+ version +:+ "_venv") d in
  if decide (code ≠ 0) then (Raise RuntimeError, d')
  else
    let new_venv_path := relative (version +:+ "_venv") in
    if path_exists d' new_venv_path
    then (Ok (resolve d' (joinpath (joinpath new_venv_path "Scripts") "python.exe")), d')
    else (Raise FileNotFoundError, d').

End Resolver.

End Utilities.

(** ** The version listing ([parse_py_launcher] in [Utilities.py]) *)

Module Launcher.

(** The white space that [s.strip()] removes (characters are code points
    below 256). *)
Definition space_chars : string :=
  String (ascii_of_nat 9) (String (ascii_of_nat 10) (String (ascii_of_nat 11)
 (String (ascii_of_nat 12) (String (ascii_of_nat 13) (String (ascii_of_nat 28)
 (String (ascii_of_nat 29) (String (ascii_of_nat 30) (String (ascii_of_nat 31)
 (String (ascii_of_nat 32) (String (ascii_of_nat 133) (String (ascii_of_nat 160)
  EmptyString))))))))))).

(** [s.strip()] *)
Definition strip (s : string) : string := PyStr.strip space_chars s.

(** [sub in s] *)
Fixpoint contains (sub s : string) : bool :=
  String.prefix sub s ||
  match s with
  | EmptyString => false
  | String _ s' => contains sub s'
  end.

(** [s.split(sep)] for a separator that is not empty: [skip] counts the
    characters of a separator just found that are still to be passed. *)
Fixpoint split_from (sep : string) (skip : nat) (s : string) : list string :=
  match s with
  | EmptyString => [EmptyString]
  | String c s' =>
      match skip with
      | S k => split_from sep k s'
      | O =>
          if String.prefix sep s
          then EmptyString :: split_from sep (String.length sep - 1) s'
          else match split_from sep 0 s' with
               | [] => [String c EmptyString]
               | w :: ws => String c w :: ws
               end
      end
  end.

(** [s.split(sep)]; an empty separator raises. *)
Definition split (sep s : string) : result (list string) :=
  match sep with
  | EmptyString => Raise ValueError
  | _ => Ok (split_from sep 0 s)
  end.

(** [s.replace(old, new)]: the occurrences of [old] are replaced from the
    left, without overlap; an empty [old] matches before every character
    and at the end. *)
Fixpoint replace_from (old new : string) (skip : nat) (s : string) : string :=
  match s with
  | EmptyString => match old with EmptyString => new | _ => EmptyString end
  | String c s' =>
      match skip with
      | S k => replace_from old new k s'
      | O =>
          if String.prefix old s
          then new +:+
               match old with
               | EmptyString => String c (replace_from old new 0 s')
               | _ => replace_from old new (String.length old - 1) s'
               end
          else String c (replace_from old new 0 s')
      end
  end.

Definition replace (old new s : string) : string := replace_from old new 0 s.

Definition BLACKLIST : list string :=
  ["3.13"; "3.13t"; "3.6"; "3.7"; "3.8"; "3.9"; "3.10"; "3.12"].

(** [v not in BLACKLIST] *)
Definition allowed (v : string) : bool :=
  negb (existsb (String.eqb v) BLACKLIST).

(** [version[0].strip().replace("-V:", "").replace(" *", "")]; the first
    piece of a split always exists. *)
Definition version_of (pieces : list string) : string :=
  replace " *" "" (replace "-V:" "" (strip (hd EmptyString pieces))).

Fixpoint split_lines (lines : list string) : result (list (list string)) :=
  match lines with
  | [] => Ok []
  | line :: rest =>
      pieces ← split "Python" (strip line);
      resp ← split_lines rest;
      Ok (pieces :: resp)
  end.

(** The function, from the decoded lines the launcher wrote on its
    standard output. *)
Definition parse_py_launcher (lines : list string) : result (list string) :=
  resp ← split_lines lines;
  resp ← match resp with
         | [] => Raise IndexError
         | first_line :: others =>
             match first_line with
             | [] => Raise IndexError
             | piece :: _ =>
                 Ok (if contains "Active venv" piece then others else resp)
             end
         end;
  let versions := List.map version_of resp in
  Ok (List.filter allowed versions).

End Launcher.

(** ** Definitions that state the properties *)

(** *** The order of floats *)

(** A float that is not a NaN has a rank; ranks compare lexicographically
    the way [SFcompare] compares floats. *)
Definition rank (x : float) : option (Z * Z * Z) :=
  match x with
  | S754_nan => None
  | S754_infinity true => Some (-2, 0, 0)
  | S754_infinity false => Some (2, 0, 0)
  | S754_zero _ => Some (0, 0, 0)
  | S754_finite true m e => Some (-1, - e, Zneg m)
  | S754_finite false m e => Some (1, e, Zpos m)
  end.

Definition rank_compare (a b : Z * Z * Z) : comparison :=
  match a.1.1 ?= b.1.1 with
  | Eq => match a.1.2 ?= b.1.2 with
          | Eq => a.2 ?= b.2
          | c => c
          end
  | c => c
  end.

Definition rank_lt (a b : Z * Z * Z) : Prop :=
  a.1.1 < b.1.1 ∨ (a.1.1 = b.1.1 ∧ (a.1.2 < b.1.2 ∨ (a.1.2 = b.1.2 ∧ a.2 < b.2))).

(** *** The representative statistic, in the words of the specification *)

(** [x] equals the minimum of the samples [l]: it is a number and no sample
    is smaller. *)
Definition is_minimum_of (x : float) (l : list float) : bool :=
  Float.eqb x x && forallb (fun y => negb (Float.ltb y x)) l.

(** Sample 0 is dropped if and only if it equals the minimum of the phase;
    the remaining samples are averaged. *)
Definition phase_mean (l : list float) : option float :=
  match l with
  | [] => None
  | sample0 :: others =>
      value_of (Float.mean (if is_minimum_of sample0 l then others else l))
  end.

(** The smaller of the two phase means. *)
Definition representative (warmup_samples benchmark_samples : list float)
  : option float :=
  w ← phase_mean warmup_samples;
  b ← phase_mean benchmark_samples;
  Some (if Float.ltb b w then b else w).

(** A [Stats] record whose phases are the given timing lists. *)
Definition stats_of (n : string) (ws bs : list float) : Stats :=
  {| name := n; warmup := JArray (JNumber <$> ws); benchmark := JArray (JNumber <$> bs) |}.

(** *** The runs of the benchmark runner *)

(** The time of the [k]-th run of [command] on the host [h]. *)
Definition sample (h : Utilities.host) (command : list string) (k : nat) : float :=
  Utilities.time_taken (h command k).

Definition exits_zero (h : Utilities.host) (command : list string) (k : nat) : Prop :=
  Utilities.returncode (h command k) = 0.

(** *** The shape of a result document *)

(** An object with a ["warmup"] and a ["benchmark"] member. *)
Definition has_phases (j : json) : Prop :=
  ∃ members w b, j = JObject members ∧
    dict_get "warmup" members = Some w ∧ dict_get "benchmark" members = Some b.

(** An object whose ["nuitka"] and ["cpython"] members have both phases. *)
Definition has_modes (doc : json) : Prop :=
  ∃ members n c, doc = JObject members ∧
    dict_get "nuitka" members = Some n ∧ dict_get "cpython" members = Some c ∧
    has_phases n ∧ has_phases c.

(** A document with both modes and both phases, every array empty. *)
Definition empty_phases : json :=
  JObject [("warmup", JArray []); ("benchmark", JArray [])].

Definition empty_document : json :=
  JObject [("nuitka", empty_phases); ("cpython", empty_phases)].

Definition empty_result_file : file :=
  {| file_name := "target-nuitka1.3-3.11.json";
     st_size := 118;
     loaded := Some empty_document |}.

(** *** Characters of a formatted number *)

Fixpoint all_chars (P : ascii → bool) (s : string) : bool :=
  match s with
  | EmptyString => true
  | String c s' => P c && all_chars P s'
  end.

Definition is_digit (c : ascii) : bool := PyStr.mem c "0123456789".

(** The characters of a bare number: digits, the point, the sign and the
    letters of [inf] and [nan]; neither ['%'] nor a bracket. *)
Definition is_plain (c : ascii) : bool := PyStr.mem c "0123456789.-infa".

(** *** Stripping characters *)

(** The first and the last character of a string, if any. *)
Definition head_char (s : string) : option ascii :=
  match s with
  | EmptyString => None
  | String c _ => Some c
  end.

Fixpoint last_char (s : string) : option ascii :=
  match s with
  | EmptyString => None
  | String c EmptyString => Some c
  | String _ s' => last_char s'
  end.

Definition in_set (chars : string) (o : option ascii) : bool :=
  match o with
  | Some c => PyStr.mem c chars
  | None => false
  end.

(** *** The records the aggregator parses *)

(** The records [from_path] returns during the first loop, in the order of
    the walk. *)
Fixpoint date_records (bm_name : string) (results : list entry)
  : result (list Benchmark) :=
  match results with
  | [] => Ok []
  | RegularFile f :: rest =>
      b ← from_path f bm_name;
      bs ← date_records bm_name rest;
      Ok (b :: bs)
  | _ :: rest => date_records bm_name rest
  end.

Fixpoint results_records (bm_name : string) (dates : list entry)
  : result (list Benchmark) :=
  match dates with
  | [] => Ok []
  | Directory _ results :: rest =>
      bs ← date_records bm_name results;
      bs' ← results_records bm_name rest;
      Ok (bs ++ bs')
  | _ :: rest => results_records bm_name rest
  end.

Fixpoint benchmarks_records (items : list entry) : result (list Benchmark) :=
  match items with
  | [] => Ok []
  | benchmark_item :: rest =>
      if is_dir benchmark_item && negb (PyStr.startswith "bm_" (entry_name benchmark_item))
      then benchmarks_records rest
      else
        dates ← iterdir (child benchmark_item "results");
        bs ← results_records (entry_name benchmark_item) dates;
        bs' ← benchmarks_records rest;
        Ok (bs ++ bs')
  end.

Definition parsed_records (benchmark_directory : option entry)
  : result (list Benchmark) :=
  items ← iterdir benchmark_directory;
  benchmarks_records items.

(** The container after the records [bs] were added to [c] one by one. *)
Definition add_results (bs : list Benchmark) (c : container) : container :=
  foldl (fun c b => add_result b c) c bs.

(** The records of one Python version, in their order. *)
Definition of_version (v : Z * Z) (bs : list Benchmark) : list Benchmark :=
  filter (fun b => python_version b = v) bs.

(** A statistic of the record raises [e] when its row is built. *)
Definition row_raises (b : Benchmark) (e : exception) : Prop :=
  calculate_cpython_stats b = Raise e ∨ calculate_nuitka_stats b = Raise e.

(** *** A results tree *)

Definition phases (ws bs : list Z) : json :=
  JObject [("warmup", JArray ((fun n => JNumber (Float.of_Z n)) <$> ws));
           ("benchmark", JArray ((fun n => JNumber (Float.of_Z n)) <$> bs))].

Definition timed_document : json :=
  JObject [("nuitka", phases [1; 3; 5] [4; 2]);
           ("cpython", phases [2; 6; 10] [8; 4])].

Definition result_file (file_name : string) : file :=
  {| file_name := file_name; st_size := 154; loaded := Some timed_document |}.

(** Two benchmarks measured under Python 3.11, one of them also under
    3.10; nothing under 3.12. *)
Definition results_tree : option entry :=
  Some (Directory "benchmarks"
    [Directory "bm_bench"
       [Directory "results"
          [Directory "2024-01-01"
             [RegularFile (result_file "bench-nuitka1.3-3.11.json");
              RegularFile (result_file "bench-nuitka1.3-3.10.json")]]];
     Directory "notes" [];
     Directory "bm_concurrent_imap"
       [Directory "results"
          [Special "latest";
           Directory "2024-01-02"
             [RegularFile (result_file "imap-nuitka1.3-3.11.json")]]]]).

(** The records of that tree. *)
Definition tree_records : list Benchmark :=
  match parsed_records results_tree with
  | Ok records => records
  | Raise _ => []
  end.

(** *** Outcomes of the environment resolver *)

(** The three outcomes of a creation: what the subprocess returned and
    whether the directory of the environment exists afterwards. *)
Definition creation_outcome (run : string → Utilities.disk → Z * Utilities.disk)
    (command venv_name : string) (d : Utilities.disk)
    (r : result Utilities.Path * Utilities.disk) : Prop :=
  let code := (run command d).1 in
  let d' := (run command d).2 in
  let new_venv_path := Utilities.relative venv_name in
  r.2 = d' ∧
  (r.1 = Raise RuntimeError ↔ code ≠ 0) ∧
  (r.1 = Raise FileNotFoundError ↔
   code = 0 ∧ Utilities.path_exists d' new_venv_path = false) ∧
  (∀ p, r.1 = Ok p ↔
        code = 0 ∧ Utilities.path_exists d' new_venv_path = true ∧
        p = Utilities.resolve d'
              (Utilities.joinpath (Utilities.joinpath new_venv_path "Scripts")
                                  "python.exe")).

(** *** Hosts for the environment resolver *)

Module ResolverHosts.
Import Utilities.

Definition home : Path := {| anchor := "C:" +:+ sep; parts := ["bench"] |}.

Definition fresh_disk : disk := {| cwd := home; existing := {[ home ]} |}.

(** A creation that succeeds and lays out the directory of the
    environment, with the interpreter elsewhere than in [Scripts]. *)
Definition run_directory_only (command : string) (d : disk) : Z * disk :=
  (0, {| cwd := cwd d;
         existing := {[ resolve d (relative "3.11_venv") ]} ∪ existing d |}).

Definition expected_interpreter : Path :=
  {| anchor := "C:" +:+ sep;
     parts := ["bench"; "3.11_venv"; "Scripts"; "python.exe"] |}.

End ResolverHosts.

(** *** Hosts for the benchmark runner *)

Module RunnerHosts.
Import Utilities.

(** Every run exits with 0; the first warm-up run is the slowest, and so
    is the first measured run. *)
Definition steady (command : list string) (k : nat) : completed :=
  {| clock_enter := Float.of_Z 0;
     returncode := 0;
     clock_exit := Float.of_Z (nth k [5; 2; 3; 9; 1; 1] 0) |}.

(** The fifth run, in the measurement loop, exits with 1. *)
Definition failing (command : list string) (k : nat) : completed :=
  {| clock_enter := Float.of_Z 0;
     returncode := if decide (k = 4%nat) then 1 else 0;
     clock_exit := Float.of_Z 1 |}.

End RunnerHosts.

(** *** File names *)

(** How often a character occurs in a string. *)
Fixpoint count_char (c : ascii) (s : string) : nat :=
  match s with
  | EmptyString => 0
  | String x s' => (if Ascii.eqb x c then 1 else 0) + count_char c s'
  end.

(** The string holds no occurrence of the character. *)
Definition no_char (c : ascii) (s : string) : bool :=
  all_chars (fun x => negb (Ascii.eqb x c)) s.



(** *** The trim of the warm-up list *)

(** The first sample is a number and no later sample is larger. *)
Definition first_is_largest (l : list float) : bool :=
  match l with
  | [] => false
  | x :: rest => Float.eqb x x && forallb (fun y => negb (Float.ltb x y)) rest
  end.

(** A host whose first two warm-up runs take the same, longest time. *)
Definition tied_host (command : list string) (k : nat) : Utilities.completed :=
  {| Utilities.clock_enter := Float.of_Z 0;
     Utilities.returncode := 0;
     Utilities.clock_exit := Float.of_Z (nth k [5; 5; 3; 1; 1; 1] 0) |}.

(** *** What the walk looks at *)

(** A directory of the benchmarks directory that the first loop skips. *)
Definition skipped (item : entry) : bool :=
  is_dir item && negb (PyStr.startswith "bm_" (entry_name item)).

Definition is_file (e : entry) : bool :=
  match e with RegularFile _ => true | _ => false end.

(** *** Rows and the order of tables *)

(** The number of rows of the printed tables. *)
Definition row_count (tables : list Table) : nat :=
  sum_list_with (fun t => length (rows t)) tables.

(** One version tuple is strictly below another. *)
Definition version_lt (a b : Z * Z) : Prop :=
  a.1 < b.1 ∨ (a.1 = b.1 ∧ a.2 < b.2).


(** *** Lines of the launcher *)

(** One line of the listing: the tag of the version, whether it is the
    active one, the number of blanks before the description, and the
    description after the word "Python". *)
Record listing : Type := {
  tag : string;
  active : bool;
  padding : nat;
  description : string
}.

Fixpoint blanks (k : nat) : string :=
  match k with
  | O => EmptyString
  | S k' => String " " (blanks k')
  end.

Definition mark (a : bool) : string := if a then " *" else "".

Definition listing_line (e : listing) : string :=
  " -V:" +:+ tag e +:+ mark (active e) +:+ blanks (padding e) +:+
  "Python" +:+ description e.

(** A tag without white space and without ['-'], ['P'] or ['A']. *)
Definition plain_tag (v : string) : bool :=
  all_chars (fun c => negb (PyStr.mem c Launcher.space_chars) &&
                      negb (PyStr.mem c "-PA")) v.

(** * Properties *)

(** ** Floats *)

Lemma compare_rank (x y : float) :
  SFcompare x y =
  match rank x, rank y with
  | Some a, Some b => Some (rank_compare a b)
  | _, _ => None
  end.
Proof.
  destruct x as [[]|[]| |[] m1 e1], y as [[]|[]| |[] m2 e2];
    try reflexivity; cbn [SFcompare rank rank_compare fst snd];
    unfold rank_compare; cbn [fst snd].
  change (-1 ?= -1) with Eq. cbv iota.
  rewrite Z.compare_opp, (Z.compare_antisym e1 e2).
  destruct (e1 ?= e2); reflexivity.
Qed.

Lemma rank_compare_lt (a b : Z * Z * Z) : rank_compare a b = Lt ↔ rank_lt a b.
Proof.
  unfold rank_compare, rank_lt.
  destruct (Z.compare_spec a.1.1 b.1.1), (Z.compare_spec a.1.2 b.1.2),
    (Z.compare_spec a.2 b.2); split; intros; try discriminate; try lia; reflexivity.
Qed.

Lemma rank_compare_eq (a b : Z * Z * Z) : rank_compare a b = Eq ↔ a = b.
Proof.
  unfold rank_compare. destruct a as [[a1 a2] a3], b as [[b1 b2] b3]; cbn [fst snd].
  destruct (Z.compare_spec a1 b1), (Z.compare_spec a2 b2), (Z.compare_spec a3 b3);
    split; intros He; try discriminate; try reflexivity;
    try (injection He; intros; lia); subst; reflexivity.
Qed.

Lemma ltb_rank (x y : float) :
  Float.ltb x y = true ↔ ∃ a b, rank x = Some a ∧ rank y = Some b ∧ rank_lt a b.
Proof.
  unfold Float.ltb, SFltb. rewrite compare_rank.
  destruct (rank x) as [a|], (rank y) as [b|].
  - destruct (rank_compare a b) eqn:Hc; split; intros H; try discriminate.
    + destruct H as (a' & b' & [= <-] & [= <-] & Hlt).
      apply rank_compare_lt in Hlt. congruence.
    + exists a, b. repeat split. by apply rank_compare_lt.
    + reflexivity.
    + destruct H as (a' & b' & [= <-] & [= <-] & Hlt).
      apply rank_compare_lt in Hlt. congruence.
  - split; [discriminate | intros (? & ? & _ & [=] & _)].
  - split; [discriminate | intros (? & ? & [=] & _)].
  - split; [discriminate | intros (? & ? & [=] & _)].
Qed.

Lemma eqb_rank (x y : float) :
  Float.eqb x y = true ↔ ∃ a, rank x = Some a ∧ rank y = Some a.
Proof.
  unfold Float.eqb, SFeqb. rewrite compare_rank.
  destruct (rank x) as [a|], (rank y) as [b|].
  - destruct (rank_compare a b) eqn:Hc; split; intros H; try discriminate.
    + apply rank_compare_eq in Hc as ->. eauto.
    + reflexivity.
    + destruct H as (c & [= ->] & [= ->]).
      by rewrite (proj2 (rank_compare_eq c c) eq_refl) in Hc.
    + destruct H as (c & [= ->] & [= ->]).
      by rewrite (proj2 (rank_compare_eq c c) eq_refl) in Hc.
  - split; [discriminate | intros (? & _ & [=])].
  - split; [discriminate | intros (? & [=] & _)].
  - split; [discriminate | intros (? & [=] & _)].
Qed.

Lemma ltb_trans (x y z : float) :
  Float.ltb x y = true → Float.ltb y z = true → Float.ltb x z = true.
Proof.
  rewrite !ltb_rank. intros (a & b & Ha & Hb & Hab) (b' & c & Hb' & Hc & Hbc).
  assert (b' = b) by congruence. subst b'.
  exists a, c. repeat split; try done. unfold rank_lt in *. lia.
Qed.

Lemma ltb_eqb_r (x y z : float) :
  Float.eqb y z = true → Float.ltb x y = Float.ltb x z.
Proof.
  intros (b & Hy & Hz)%eqb_rank.
  apply eq_true_iff_eq. rewrite !ltb_rank.
  split; intros (a & b' & Ha & Hb' & Hlt); exists a, b; repeat split; congruence.
Qed.

Lemma ltb_not_eqb (x y : float) : Float.ltb x y = true → Float.eqb x y = false.
Proof.
  unfold Float.ltb, Float.eqb, SFltb, SFeqb.
  destruct (SFcompare x y) as [[]|]; done.
Qed.

Lemma ltb_nan_r (x y : float) : Float.eqb y y = false → Float.ltb x y = false.
Proof.
  intros Hy. destruct (Float.ltb x y) eqn:Hlt; [|done].
  apply ltb_rank in Hlt as (a & b & _ & Hb & _).
  assert (Float.eqb y y = true) by (apply eqb_rank; eauto). congruence.
Qed.

Lemma eqb_refl_of_ltb (x y : float) : Float.ltb x y = true → Float.eqb y y = true.
Proof.
  intros Hlt. destruct (Float.eqb y y) eqn:He; [done|].
  by rewrite (ltb_nan_r x y He) in Hlt.
Qed.

Lemma rank_compare_antisym (a b : Z * Z * Z) :
  rank_compare b a = CompOpp (rank_compare a b).
Proof.
  unfold rank_compare.
  rewrite (Z.compare_antisym a.1.1 b.1.1), (Z.compare_antisym a.1.2 b.1.2),
    (Z.compare_antisym a.2 b.2).
  destruct (a.1.1 ?= b.1.1), (a.1.2 ?= b.1.2); reflexivity.
Qed.

Lemma rank_number (x : float) : Float.is_nan x = false → ∃ a, rank x = Some a.
Proof. destruct x as [[]|[]| |[] m e]; try done; cbn [rank]; eauto. Qed.

(** Between two numbers, "not smaller" is "greater or equal". *)
Lemma not_ltb_leb (x y : float) :
  Float.is_nan x = false → Float.is_nan y = false →
  negb (Float.ltb y x) = SFleb x y.
Proof.
  intros [a Ha]%rank_number [b Hb]%rank_number.
  unfold Float.ltb, SFltb, SFleb. rewrite !compare_rank, Ha, Hb.
  rewrite (rank_compare_antisym a b). by destruct (rank_compare a b).
Qed.

Lemma ltb_irrefl (x : float) : Float.ltb x x = false.
Proof.
  destruct (Float.ltb x x) eqn:Hlt; [|done].
  apply ltb_rank in Hlt as (a & b & Ha & Hb & Hlt).
  assert (a = b) by congruence. subst. unfold rank_lt in Hlt. lia.
Qed.

(** ** The representative statistic *)

Section RunningMinimum.

Let step (cur y : float) : float := if Float.ltb y cur then y else cur.

(** Once the running minimum is below sample 0 it stays below. *)
Lemma running_min_below (s0 : float) (rest : list float) (cur : float) :
  Float.ltb cur s0 = true → Float.ltb (fold_left step rest cur) s0 = true.
Proof.
  revert cur. induction rest as [|y rest IH]; intros cur Hcur; [done|].
  cbn [fold_left]. apply IH. unfold step.
  destruct (Float.ltb y cur) eqn:Hy; [|done]. by eapply ltb_trans.
Qed.

(** While the running minimum equals sample 0, no smaller sample was met. *)
Lemma running_min_equal (s0 : float) (rest : list float) (cur : float) :
  Float.eqb cur s0 = true →
  Float.eqb (fold_left step rest cur) s0 =
  forallb (fun y => negb (Float.ltb y s0)) rest.
Proof.
  revert cur. induction rest as [|y rest IH]; intros cur Hcur; [done|].
  cbn [fold_left forallb]. rewrite <- (ltb_eqb_r y cur s0 Hcur).
  unfold step at 2. destruct (Float.ltb y cur) eqn:Hy; cbn [negb andb].
  - apply ltb_not_eqb, running_min_below.
    by rewrite <- (ltb_eqb_r y cur s0 Hcur).
  - by apply IH.
Qed.

(** A NaN in front is never replaced. *)
Lemma running_min_nan (rest : list float) (cur : float) :
  Float.eqb cur cur = false → fold_left step rest cur = cur.
Proof.
  intros Hnan. induction rest as [|y rest IH]; [done|].
  cbn [fold_left]. unfold step at 2. by rewrite (ltb_nan_r y cur Hnan).
Qed.

Lemma min_is_minimum (s0 : float) (rest : list float) (m : float) :
  Float.min (s0 :: rest) = Ok m →
  Float.eqb m s0 = is_minimum_of s0 (s0 :: rest).
Proof.
  intros [= <-]. unfold is_minimum_of. cbn [forallb].
  rewrite ltb_irrefl. cbn [negb andb].
  destruct (Float.eqb s0 s0) eqn:Hs0; cbn [andb].
  - by apply running_min_equal.
  - fold step. by rewrite running_min_nan.
Qed.

End RunningMinimum.

(** On samples that are all numbers, sample 0 equals the minimum exactly
    when it is less than or equal to every sample. *)
Lemma is_minimum_of_le (x : float) (l : list float) :
  Float.is_nan x = false →
  Forall (fun y => Float.is_nan y = false) l →
  is_minimum_of x l = forallb (fun y => SFleb x y) l.
Proof.
  intros Hx Hl. unfold is_minimum_of.
  assert (Float.eqb x x = true) as ->.
  { destruct (rank_number x Hx) as [a Ha]. apply eqb_rank. eauto. }
  cbn [andb]. induction Hl as [|y l Hy Hl IH]; [done|].
  cbn [forallb]. by rewrite IH, (not_ltb_leb x y Hx Hy).
Qed.

Lemma as_numbers_numbers (l : list float) : as_numbers (JNumber <$> l) = Ok l.
Proof.
  induction l as [|x l IH]; [done|].
  cbn [fmap list_fmap as_numbers as_number mbind result_bind].
  change (list_fmap float json JNumber l) with (JNumber <$> l).
  by rewrite IH.
Qed.

Lemma samples_numbers (l : list float) : samples (JArray (JNumber <$> l)) = Ok l.
Proof. apply as_numbers_numbers. Qed.

(** What [_calculate_stats] computes for one phase: the minimum, the test
    on sample 0, the slice and the mean. *)
Lemma phase_mean_code (l : list float) :
  value_of (m ← Float.min l; Float.mean (slice_from (Float.eqb m (first l)) l))
  = phase_mean l.
Proof.
  destruct l as [|s0 rest]; [done|].
  destruct (Float.min (s0 :: rest)) as [m|e] eqn:Hmin; [|done].
  cbn [mbind result_bind first hd phase_mean].
  rewrite (min_is_minimum s0 rest m Hmin).
  by destruct (is_minimum_of s0 (s0 :: rest)).
Qed.

(** [_calculate_stats] computes the statistic of the specification, and
    raises exactly when that statistic is undefined. *)
Lemma calculate_stats_value (n : string) (ws bs : list float) :
  value_of (_calculate_stats (stats_of n ws bs)) = representative ws bs.
Proof.
  unfold _calculate_stats, stats_of, representative.
  cbn [warmup benchmark]. rewrite !samples_numbers.
  cbn [mbind result_bind].
  pose proof (phase_mean_code ws) as Hw. pose proof (phase_mean_code bs) as Hb.
  destruct (Float.min ws) as [mw|ew]; cbn [mbind result_bind value_of] in *.
  2:{ by rewrite <- Hw. }
  destruct (Float.min bs) as [mb|eb]; cbn [mbind result_bind value_of] in *.
  2:{ rewrite <- Hb. by destruct (phase_mean ws). }
  rewrite <- Hw, <- Hb.
  destruct (Float.mean (slice_from (Float.eqb mw (first ws)) ws)) as [w|e1];
    cbn [mbind result_bind value_of option_bind]; [|done].
  destruct (Float.mean (slice_from (Float.eqb mb (first bs)) bs)) as [b|e2];
    cbn [mbind result_bind value_of option_bind]; done.
Qed.

(** C1: for every Stats record, and for the warm-up and the benchmark phase
    separately, the statistic drops sample 0 if and only if sample 0 equals
    the minimum of the phase, takes the mean of the remaining samples, and
    returns the smaller of the two phase means (it raises when a phase has
    no sample to average). *)
Theorem calculate_stats_representative (n : string) (ws bs : list float) :
  value_of (_calculate_stats (stats_of n ws bs)) = representative ws bs.
Proof. apply calculate_stats_value. Qed.

Example calculate_stats_example :
  _calculate_stats
    (stats_of "nuitka" [Float.of_Z 1; Float.of_Z 3; Float.of_Z 5]
                       [Float.of_Z 4; Float.of_Z 2])
  = Ok (Float.of_Z 3).
Proof. vm_compute. reflexivity. Qed.

Example calculate_stats_single_sample :
  _calculate_stats (stats_of "nuitka" [Float.of_Z 1] [Float.of_Z 4; Float.of_Z 2])
  = Raise StatisticsError.
Proof. vm_compute. reflexivity. Qed.

(** ** The benchmark runner *)

Module RunnerFacts.
Import Utilities.

Lemma bind_run {A B} (m : proc A) (f : A → proc B) (k : nat) :
  (m ≫= f) k =
  match m k with
  | (Ok a, k') => f a k'
  | (Raise e, k') => (Raise e, k')
  end.
Proof. reflexivity. Qed.

Section Loop.

Variable h : host.
Variable command : list string.

Abbreviation sample := (sample h command).
Abbreviation exits_zero := (exits_zero h command).

(** A loop whose runs all exit with 0 appends their times in order. *)
Lemma timed_loop_ok (n : nat) (acc : list float) (k : nat) :
  (∀ j, (j < n)%nat → exits_zero (k + j)) →
  timed_loop h command n acc k = (Ok (acc ++ (sample <$> seq k n)), (k + n)%nat).
Proof.
  revert acc k. induction n as [|n IH]; intros acc k Hok.
  - cbn. by rewrite app_nil_r, Nat.add_0_r.
  - cbn [timed_loop]. rewrite bind_run. unfold timed_run.
    pose proof (Hok 0%nat ltac:(lia)) as H0. unfold exits_zero in H0.
    rewrite Nat.add_0_r in H0.
    destruct (decide (returncode (h command k) ≠ 0)) as [Hne|_]; [done|].
    rewrite IH.
    + cbn [seq fmap list_fmap]. rewrite <- app_assoc. cbn [app].
      f_equal. lia.
    + intros j Hj. replace (S k + j)%nat with (k + S j)%nat by lia.
      apply Hok. lia.
Qed.

(** A loop stops at the first run that exits with another code. *)
Lemma timed_loop_fails (n : nat) (acc : list float) (k j : nat) :
  (j < n)%nat →
  (∀ i, (i < j)%nat → exits_zero (k + i)) →
  ¬ exits_zero (k + j) →
  timed_loop h command n acc k = (Raise RuntimeError, S (k + j)).
Proof.
  revert acc k j. induction n as [|n IH]; intros acc k j Hj Hbefore Hfail; [lia|].
  cbn [timed_loop]. rewrite bind_run. unfold timed_run.
  destruct j as [|j].
  - rewrite Nat.add_0_r in *. unfold exits_zero in Hfail.
    destruct (decide (returncode (h command k) ≠ 0)); done.
  - pose proof (Hbefore 0%nat ltac:(lia)) as H0. unfold exits_zero in H0.
    rewrite Nat.add_0_r in H0.
    destruct (decide (returncode (h command k) ≠ 0)) as [Hne|_]; [done|].
    rewrite (IH _ (S k) j).
    + f_equal. lia.
    + lia.
    + intros i Hi. replace (S k + i)%nat with (k + S i)%nat by lia.
      apply Hbefore. lia.
    + by replace (S k + j)%nat with (k + S j)%nat by lia.
Qed.

(** Whatever a loop returns is what it was given followed by the times
    of its [n] runs. *)
Lemma timed_loop_returns (n : nat) (acc l : list float) (k k' : nat) :
  timed_loop h command n acc k = (Ok l, k') →
  l = acc ++ (sample <$> seq k n) ∧ k' = (k + n)%nat.
Proof.
  revert acc k. induction n as [|n IH]; intros acc k.
  - cbn. intros [= <- <-]. by rewrite app_nil_r, Nat.add_0_r.
  - cbn [timed_loop]. rewrite bind_run. unfold timed_run.
    destruct (decide (returncode (h command k) ≠ 0)) as [Hne|_]; [done|].
    intros [-> ->]%IH. cbn [seq fmap list_fmap].
    rewrite <- app_assoc. split; [done | lia].
Qed.

End Loop.

Section RunningMaximum.

Let step (cur y : float) : float := if Float.gtb y cur then y else cur.

(** When no later sample exceeds the first, the first is the maximum. *)
Lemma running_max_first (x : float) (rest : list float) :
  Forall (fun y => Float.ltb y x = true) rest → fold_left step rest x = x.
Proof.
  induction 1 as [|y rest Hy _ IH]; [done|].
  cbn [fold_left]. unfold step at 2, Float.gtb.
  destruct (SFltb x y) eqn:Hxy; [|done].
  assert (Float.ltb x x = true) as Hxx by by eapply ltb_trans.
  by rewrite ltb_irrefl in Hxx.
Qed.

Lemma trim_warmup_largest_first (x : float) (rest : list float) :
  rest ≠ [] →
  Forall (fun y => Float.ltb y x = true) rest →
  trim_warmup (x :: rest) = Ok rest.
Proof.
  intros Hne Hall. unfold trim_warmup, Float.max.
  cbn [mbind result_bind first hd tl]. fold step.
  rewrite (running_max_first x rest Hall).
  destruct rest as [|y rest]; [done|].
  apply Forall_cons in Hall as [Hy _].
  by rewrite (eqb_refl_of_ltb y x Hy).
Qed.

Lemma trim_warmup_nonempty (l : list float) :
  l ≠ [] → ∃ ws, trim_warmup l = Ok ws.
Proof.
  destruct l as [|x rest]; [done|]. intros _.
  unfold trim_warmup, Float.max. cbn [mbind result_bind]. eauto.
Qed.

End RunningMaximum.

End RunnerFacts.

Section Runner.
Import Utilities RunnerFacts.

Variable h : host.
Variables cwd python_executable type : string.
Variable iterations : Z.
Variable command : list string.

Hypothesis command_of_type : run_command cwd python_executable type = Ok command.

Abbreviation n := (Z.to_nat iterations).
Abbreviation sample := (sample h command).
Abbreviation exits_zero := (exits_zero h command).

(** The runner when every run exits with 0 and there is a run at all. *)
Lemma run_benchmark_ok :
  (1 ≤ n)%nat →
  (∀ k, (k < 2 * n)%nat → exits_zero k) →
  ∃ ws, trim_warmup (sample <$> seq 0 n) = Ok ws ∧
        run_benchmark h cwd python_executable iterations type 0%nat =
        (Ok {| warmup := ws; benchmark := sample <$> seq n n |}, (2 * n)%nat).
Proof.
  intros Hn Hok. unfold run_benchmark.
  rewrite bind_run. unfold lift at 1. rewrite command_of_type.
  rewrite bind_run, (timed_loop_ok h command n [] 0).
  2:{ intros j Hj. apply Hok. lia. }
  cbn [app Nat.add]. rewrite bind_run. unfold lift.
  destruct (trim_warmup (sample <$> seq 0 n)) as [ws|e] eqn:Hws.
  - exists ws. split; [done|].
    rewrite bind_run, (timed_loop_ok h command n [] n).
    2:{ intros j Hj. apply Hok. lia. }
    cbn [app]. unfold mret, proc_ret. do 2 f_equal. lia.
  - destruct (trim_warmup_nonempty (sample <$> seq 0 n)) as [ws Hws'];
      [|congruence].
    intros Hnil%(f_equal length). rewrite length_fmap, length_seq in Hnil.
    cbn in Hnil. lia.
Qed.

(** C2: when the first of N >= 2 warm-up samples is strictly the largest,
    the trim after the warm-up loop removes exactly that sample and keeps
    the other N-1 in their order; the list of the measurement phase holds
    all its N samples, whatever they are: nothing trims it. *)
Theorem warmup_trim_only :
  (∀ k, (k < 2 * n)%nat → exits_zero k) →
  ((2 ≤ n)%nat →
   (∀ k, (0 < k < n)%nat → Float.ltb (sample k) (sample 0%nat) = true) →
   run_benchmark h cwd python_executable iterations type 0%nat =
   (Ok {| warmup := sample <$> seq 1 (n - 1); benchmark := sample <$> seq n n |},
    (2 * n)%nat))
  ∧ ((1 ≤ n)%nat →
     ∃ ws, run_benchmark h cwd python_executable iterations type 0%nat =
           (Ok {| warmup := ws; benchmark := sample <$> seq n n |}, (2 * n)%nat)).
Proof.
  intros Hok. split.
  - intros Hn Hlargest.
    destruct (run_benchmark_ok ltac:(lia) Hok) as (ws & Htrim & ->).
    do 3 f_equal.
    destruct n as [|n'] eqn:Hn'; [lia|].
    cbn [seq fmap list_fmap] in Htrim.
    rewrite trim_warmup_largest_first in Htrim.
    + injection Htrim as <-. by replace (S n' - 1)%nat with n' by lia.
    + destruct n' as [|n'']; [lia|]. done.
    + apply Forall_fmap, Forall_forall. intros k Hk%elem_of_seq.
      apply Hlargest. lia.
  - intros Hn. destruct (run_benchmark_ok Hn Hok) as (ws & _ & ->). eauto.
Qed.

(** C7: in the warm-up loop as in the measurement loop, the first run that
    exits with a non-zero code makes the runner raise a runtime error at
    once: that run is the last one made and no result mapping is
    returned. *)
Theorem nonzero_exit_aborts (j : nat) :
  (j < 2 * n)%nat →
  (∀ i, (i < j)%nat → exits_zero i) →
  ¬ exits_zero j →
  run_benchmark h cwd python_executable iterations type 0%nat =
  (Raise RuntimeError, S j).
Proof.
  intros Hj Hbefore Hfail. unfold run_benchmark.
  rewrite bind_run. unfold lift at 1. rewrite command_of_type.
  rewrite bind_run.
  destruct (decide (j < n)%nat) as [Hwarm|Hmeasure].
  - by rewrite (timed_loop_fails h command n [] 0 j).
  - rewrite (timed_loop_ok h command n [] 0).
    2:{ intros i Hi. apply Hbefore. lia. }
    cbn [app Nat.add]. rewrite bind_run. unfold lift.
    destruct (trim_warmup (sample <$> seq 0 n)) as [ws|e] eqn:Hws.
    + rewrite bind_run, (timed_loop_fails h command n [] n (j - n)).
      * f_equal. lia.
      * lia.
      * intros i Hi. apply Hbefore. lia.
      * by replace (n + (j - n))%nat with j by lia.
    + destruct (trim_warmup_nonempty (sample <$> seq 0 n)) as [ws Hws'];
        [|congruence].
      intros Hnil%(f_equal length). rewrite length_fmap, length_seq in Hnil.
      cbn in Hnil. lia.
Qed.

End Runner.

(** Witness of C2: three iterations on the steady host. *)
Lemma warmup_trim_only_witness :
  let cmd := ["python"; "run_benchmark.py"] in
  Utilities.run_command "" "python" "CPython" = Ok cmd ∧
  (∀ k, (k < 2 * Z.to_nat 3)%nat → exits_zero RunnerHosts.steady cmd k) ∧
  (2 ≤ Z.to_nat 3)%nat ∧
  (∀ k, (0 < k < Z.to_nat 3)%nat →
     Float.ltb (sample RunnerHosts.steady cmd k) (sample RunnerHosts.steady cmd 0) = true) ∧
  Utilities.run_benchmark RunnerHosts.steady "" "python" 3 "CPython" 0%nat =
  (Ok {| Utilities.warmup := [Float.of_Z 2; Float.of_Z 3];
         Utilities.benchmark := [Float.of_Z 9; Float.of_Z 1; Float.of_Z 1] |}, 6%nat).
Proof.
  assert (∀ k, (k < 2 * Z.to_nat 3)%nat →
               exits_zero RunnerHosts.steady ["python"; "run_benchmark.py"] k) as Hok.
  { intros k _. reflexivity. }
  assert (∀ k, (0 < k < Z.to_nat 3)%nat →
     Float.ltb (sample RunnerHosts.steady ["python"; "run_benchmark.py"] k)
               (sample RunnerHosts.steady ["python"; "run_benchmark.py"] 0) = true)
    as Hlargest.
  { intros [|[|[|k]]] Hk; [exfalso; lia | reflexivity | reflexivity | exfalso].
    change (Z.to_nat 3) with 3%nat in Hk. lia. }
  split; [reflexivity|]. split; [exact Hok|]. split; [cbn; lia|].
  split; [exact Hlargest|].
  rewrite (proj1 (warmup_trim_only RunnerHosts.steady "" "python" "CPython" 3
                    ["python"; "run_benchmark.py"] eq_refl Hok)
             ltac:(cbn; lia) Hlargest).
  reflexivity.
Defined.

(** Witness of C7: on the failing host the fifth run is the last. *)
Lemma nonzero_exit_aborts_witness :
  let cmd := ["python"; "run_benchmark.py"] in
  Utilities.run_command "" "python" "CPython" = Ok cmd ∧
  (4 < 2 * Z.to_nat 3)%nat ∧
  (∀ i, (i < 4)%nat → exits_zero RunnerHosts.failing cmd i) ∧
  ¬ exits_zero RunnerHosts.failing cmd 4 ∧
  Utilities.run_benchmark RunnerHosts.failing "" "python" 3 "CPython" 0%nat =
  (Raise RuntimeError, 5%nat).
Proof.
  assert (∀ i, (i < 4)%nat →
               exits_zero RunnerHosts.failing ["python"; "run_benchmark.py"] i) as Hbefore.
  { intros [|[|[|[|i]]]] Hi; try reflexivity. exfalso. lia. }
  assert (¬ exits_zero RunnerHosts.failing ["python"; "run_benchmark.py"] 4) as Hfail.
  { intros H. discriminate H. }
  split; [reflexivity|]. split; [cbn; lia|]. split; [exact Hbefore|].
  split; [exact Hfail|].
  apply (nonzero_exit_aborts RunnerHosts.failing "" "python" "CPython" 3
           ["python"; "run_benchmark.py"] eq_refl 4); [cbn; lia | exact Hbefore | exact Hfail].
Defined.

(** ** Parsing result files *)

Lemma getitem_ok (j : json) (key : string) (v : json) :
  getitem j key = Ok v ↔ ∃ members, j = JObject members ∧ dict_get key members = Some v.
Proof.
  split.
  - destruct j as [| | | | |members]; try discriminate. cbn [getitem].
    destruct (dict_get key members) as [v'|] eqn:Hget; [|discriminate].
    intros [= ->]. eauto.
  - intros (members & -> & Hget). cbn [getitem]. by rewrite Hget.
Qed.

Lemma parse_stats_accepts (doc : json) :
  (∃ s, parse_stats doc = Ok s) ↔ has_modes doc.
Proof.
  unfold parse_stats, has_modes, has_phases. split.
  - intros [s Hs].
    destruct (getitem doc "nuitka") as [n|] eqn:Hn; [|discriminate].
    destruct (getitem doc "cpython") as [c|] eqn:Hc; [|discriminate].
    cbn [mbind result_bind] in Hs.
    destruct (getitem n "warmup") as [wn|] eqn:Hwn; [|discriminate].
    destruct (getitem n "benchmark") as [bn|] eqn:Hbn; [|discriminate].
    cbn [mbind result_bind] in Hs.
    destruct (getitem c "warmup") as [wc|] eqn:Hwc; [|discriminate].
    destruct (getitem c "benchmark") as [bc|] eqn:Hbc; [|discriminate].
    apply getitem_ok in Hn as (members & -> & Hn).
    apply getitem_ok in Hc as (members' & [= <-] & Hc).
    apply getitem_ok in Hwn as (mn & -> & Hwn).
    apply getitem_ok in Hbn as (mn' & [= <-] & Hbn).
    apply getitem_ok in Hwc as (mc & -> & Hwc).
    apply getitem_ok in Hbc as (mc' & [= <-] & Hbc).
    exists members, (JObject mn), (JObject mc). repeat split; eauto 10.
  - intros (members & n & c & -> & Hn & Hc & (mn & wn & bn & -> & Hwn & Hbn)
            & (mc & wc & bc & -> & Hwc & Hbc)).
    cbn [getitem]. rewrite Hn, Hc. cbn [mbind result_bind getitem].
    rewrite Hwn, Hbn, Hwc, Hbc. cbn [mbind result_bind]. eauto.
Qed.

Lemma from_path_accepts (f : file) (bm : string) :
  (∃ b, from_path f bm = Ok b) ↔
  0 < st_size f ∧
  ∃ doc, loaded f = Some doc ∧ has_modes doc ∧
         ∃ info, parse_file_name (PurePath.stem (file_name f)) = Ok info.
Proof.
  unfold from_path. split.
  - intros [b Hb].
    destruct (0 <? st_size f) eqn:Hsize; [|discriminate]. cbn [negb] in Hb.
    destruct (loaded f) as [doc|]; [|discriminate].
    destruct (parse_file_name (PurePath.stem (file_name f))) as [info|]; [|discriminate].
    cbn [mbind result_bind] in Hb.
    destruct (parse_stats doc) as [s|] eqn:Hs; [|discriminate].
    split; [lia|]. exists doc. repeat split; eauto.
    apply parse_stats_accepts. eauto.
  - intros (Hsize & doc & -> & [s Hs]%parse_stats_accepts & info & ->).
    apply Z.ltb_lt in Hsize. rewrite Hsize, Hs. cbn [negb mbind result_bind]. eauto.
Qed.

Lemma empty_phase_raises (n : string) (l : list float) :
  raises (_calculate_stats (stats_of n [] l)) ∧
  raises (_calculate_stats (stats_of n l [])).
Proof.
  unfold raises. rewrite !calculate_stats_value. unfold representative.
  split; [done|]. by destruct (phase_mean l).
Qed.

(** C3, as amended: parsing fails unless the document is an object whose
    "nuitka" and "cpython" members are objects with a "warmup" and a
    "benchmark" member (for a file: unless moreover it is not empty, holds
    JSON and has a well-formed name).  What the four members hold is not
    looked at; an empty array passes the parser and makes the statistic
    raise when it is computed. *)
Theorem parsing_checks_keys_only :
  (∀ doc, (∃ s, parse_stats doc = Ok s) ↔ has_modes doc) ∧
  (∀ f bm, (∃ b, from_path f bm = Ok b) ↔
           0 < st_size f ∧
           ∃ doc, loaded f = Some doc ∧ has_modes doc ∧
                  ∃ info, parse_file_name (PurePath.stem (file_name f)) = Ok info) ∧
  (∀ n l, raises (_calculate_stats (stats_of n [] l)) ∧
          raises (_calculate_stats (stats_of n l []))).
Proof.
  split; [exact parse_stats_accepts|].
  split; [exact from_path_accepts | exact empty_phase_raises].
Qed.

(** C3 fails as stated: a result file whose four arrays are empty is parsed
    into a record. *)
Lemma empty_arrays_are_parsed :
  from_path empty_result_file "bm_target" =
  Ok {| target := "target";
        nuitka_version := "nuitka1.3";
        python_version := (3, 11);
        file_json := empty_document;
        nuitka_stats := {| name := "nuitka"; warmup := JArray []; benchmark := JArray [] |};
        cpython_stats := {| name := "cpython"; warmup := JArray []; benchmark := JArray [] |};
        benchmark_name := "target" |}.
Proof. reflexivity. Qed.

(** Witness of C3: the timed document has both modes and is parsed. *)
Lemma parsing_checks_keys_only_witness :
  has_modes timed_document ∧ ∃ s, parse_stats timed_document = Ok s.
Proof.
  assert (has_modes timed_document) as Hmodes.
  { exists [("nuitka", phases [1; 3; 5] [4; 2]); ("cpython", phases [2; 6; 10] [8; 4])].
    exists (phases [1; 3; 5] [4; 2]), (phases [2; 6; 10] [8; 4]).
    split; [reflexivity|]. split; [reflexivity|]. split; [reflexivity|].
    split; eexists _, _, _; (split; [reflexivity|]); split; reflexivity. }
  split; [exact Hmodes|].
  exact (proj2 (proj1 parsing_checks_keys_only timed_document) Hmodes).
Defined.

(** C4: the file name "target-nuitka1.3-3.11.json" yields the target
    "target", the compiler version "nuitka1.3" and the Python version
    (3, 11): the stem is split on hyphens, its last segment on dots, and the
    first two components are read as integers. *)
Theorem parse_file_name_example :
  PurePath.stem "target-nuitka1.3-3.11.json" = "target-nuitka1.3-3.11" ∧
  PyStr.split "-" "target-nuitka1.3-3.11" = ["target"; "nuitka1.3"; "3.11"] ∧
  PyStr.split "." "3.11" = ["3"; "11"] ∧
  parse_file_name (PurePath.stem "target-nuitka1.3-3.11.json")
  = Ok ("target", "nuitka1.3", (3, 11)).
Proof. repeat split. Qed.

(** ** The comparison formatter *)

(** C5: for cpython = 10.00 and nuitka = 8.00 the formatter reports nuitka
    as faster: the nuitka value, then the gain 10/8*100-100 = 25.00% inside
    the green marker. *)
Theorem format_faster_example :
  format_benchmark_stat (Float.of_Z 8) (Float.of_Z 10)
  = Ok "8.00 +[green]25.00%[/green]".
Proof. vm_compute. reflexivity. Qed.

Lemma mem_append (c : ascii) (a b : string) :
  PyStr.mem c (a +:+ b) = PyStr.mem c a || PyStr.mem c b.
Proof.
  induction a as [|d a IH]; [done|].
  simpl. by rewrite IH, orb_assoc.
Qed.

Lemma is_digit_plain (c : ascii) : is_digit c = true → is_plain c = true.
Proof.
  intros Hc.
  assert (is_plain c = is_digit c || PyStr.mem c ".-infa") as ->
    by apply (mem_append c "0123456789" ".-infa").
  by rewrite Hc.
Qed.

Lemma all_chars_append (P : ascii → bool) (a b : string) :
  all_chars P (a +:+ b) = all_chars P a && all_chars P b.
Proof.
  induction a as [|c a IH]; [done|].
  simpl. by rewrite IH, andb_assoc.
Qed.

Lemma all_chars_impl (P Q : ascii → bool) (s : string) :
  (∀ c, P c = true → Q c = true) → all_chars P s = true → all_chars Q s = true.
Proof.
  intros HPQ. induction s as [|c s IH]; [done|]. cbn [all_chars].
  intros [Hc Hs]%andb_true_iff. by rewrite (HPQ c Hc), IH.
Qed.

Lemma string_of_uint_digits (d : Decimal.uint) :
  all_chars is_digit (NilEmpty.string_of_uint d) = true.
Proof. induction d; cbn [NilEmpty.string_of_uint all_chars]; by rewrite ?IHd. Qed.

Lemma of_int_plain (n : Z) : all_chars is_plain (PyStr.of_int n) = true.
Proof.
  assert (∀ p, all_chars is_plain (NilZero.string_of_uint (Pos.to_uint p)) = true) as Hpos.
  { intros p. unfold NilZero.string_of_uint.
    destruct (Pos.to_uint p) eqn:Hp; try done;
      rewrite <- Hp; eapply all_chars_impl, string_of_uint_digits; apply is_digit_plain. }
  destruct n as [|p|p]; cbn [PyStr.of_int all_chars]; [done | apply Hpos |].
  by rewrite Hpos.
Qed.

Lemma digit_char_plain (d : Z) : 0 ≤ d < 10 → is_plain (Float.digit_char d) = true.
Proof.
  intros Hd.
  assert (d = 0 ∨ d = 1 ∨ d = 2 ∨ d = 3 ∨ d = 4 ∨ d = 5 ∨ d = 6 ∨ d = 7 ∨ d = 8 ∨ d = 9)
    as Hcases by lia.
  repeat destruct Hcases as [->|Hcases]; try reflexivity. by subst.
Qed.

Lemma format_2f_plain (x : float) : all_chars is_plain (Float.format_2f x) = true.
Proof.
  destruct x as [[]|[]| |s m e]; try reflexivity.
  unfold Float.format_2f, Float.fixed2.
  rewrite !all_chars_append. cbn [all_chars].
  rewrite of_int_plain, !digit_char_plain.
  - by destruct s.
  - apply Z.mod_pos_bound. lia.
  - pose proof (Z.mod_pos_bound (Float.hundredths m e) 100 ltac:(lia)).
    split; [apply Z.div_pos; lia | apply Z.div_lt_upper_bound; lia].
Qed.

Lemma eqb_not_ltb (x y : float) :
  Float.eqb x y = true → Float.ltb x y = false ∧ Float.ltb y x = false.
Proof.
  intros (a & Hx & Hy)%eqb_rank.
  split; apply not_true_is_false; intros (a' & b' & Ha' & Hb' & Hlt)%ltb_rank;
    assert (a' = b') by congruence; subst; unfold rank_lt in Hlt; lia.
Qed.

(** C6: for equal inputs the formatter returns the bare number formatted to
    two decimals: no percentage and no color marker, since none of its
    characters is ['%'] or a bracket. *)
Theorem format_equal_is_bare (nuitka cpython : float) :
  Float.eqb nuitka cpython = true →
  format_benchmark_stat nuitka cpython = Ok (Float.format_2f nuitka) ∧
  all_chars is_plain (Float.format_2f nuitka) = true.
Proof.
  intros [Hlt Hgt]%eqb_not_ltb. unfold format_benchmark_stat, Float.gtb.
  fold (Float.ltb cpython nuitka). rewrite Hlt, Hgt.
  split; [done | apply format_2f_plain].
Qed.

(** Witness of C6: both inputs are 8.00. *)
Lemma format_equal_is_bare_witness :
  Float.eqb (Float.of_Z 8) (Float.of_Z 8) = true ∧
  format_benchmark_stat (Float.of_Z 8) (Float.of_Z 8) = Ok "8.00" ∧
  all_chars is_plain "8.00" = true.
Proof.
  split; [reflexivity|].
  exact (format_equal_is_bare (Float.of_Z 8) (Float.of_Z 8) eq_refl).
Defined.

Example format_slower_example :
  format_benchmark_stat (Float.of_Z 10) (Float.of_Z 8)
  = Ok "10.00 -[red]25.00%[/red]".
Proof. vm_compute. reflexivity. Qed.

Example format_zero_divisor :
  format_benchmark_stat Float.zero (Float.of_Z 8) = Raise ZeroDivisionError.
Proof. reflexivity. Qed.

(** ** The environment resolver *)

Section ResolverFacts.
Import Utilities.

Variable executable : Path.
Variables prefix base_prefix : string.
Variable run : string → disk → Z * disk.

Abbreviation outcome := (creation_outcome run).

Lemma create_venv_with_version_outcome (version : string) (d : disk) :
  outcome ("py -" +:+ version +:+ " -m venv " +:+ version +:+ "_venv")
                   (version +:+ "_venv") d
                   (create_venv_with_version run version d).
Proof.
  unfold creation_outcome, create_venv_with_version.
  destruct (run _ d) as [code d']. cbn [fst snd].
  destruct (decide (code ≠ 0)) as [Hcode|Hcode%dec_stable]; cbn [fst snd].
  { repeat split; try done; try (intros [? _]; done). }
  destruct (path_exists d' _) eqn:Hexists; cbn [fst snd];
    repeat split; try done; try congruence; try (intros (_ & ? & _); done);
    try (intros (_ & _ & ->); done); intros [? ?]; done.
Qed.

Lemma resolve_venv_path_outcome (d : disk) :
  if is_in_venv prefix base_prefix
  then resolve_venv_path executable prefix base_prefix run d
       = (Ok (resolve d executable), d)
  else outcome (to_string (resolve d executable) +:+ " -m venv venv")
                        "venv" d
                        (resolve_venv_path executable prefix base_prefix run d).
Proof.
  unfold resolve_venv_path. destruct (is_in_venv prefix base_prefix); [done|].
  unfold creation_outcome.
  destruct (run _ d) as [code d']. cbn [fst snd].
  destruct (decide (code ≠ 0)) as [Hcode|Hcode%dec_stable]; cbn [fst snd].
  { repeat split; try done; try (intros [? _]; done). }
  destruct (path_exists d' _) eqn:Hexists; cbn [fst snd];
    repeat split; try done; try congruence; try (intros (_ & ? & _); done);
    try (intros (_ & _ & ->); done); intros [? ?]; done.
Qed.

(** C8, as amended: each resolver raises a runtime error exactly when the
    creation subprocess exits with a non-zero code; after an exit with 0
    it raises a file-not-found error exactly when the directory of the
    environment does not exist, and otherwise returns the resolved path of
    [Scripts/python.exe] inside it, which is not itself examined.
    Inside a virtual environment [resolve_venv_path] returns the resolved
    current interpreter and creates nothing. *)
Theorem resolver_outcomes (version : string) (d : disk) :
  outcome ("py -" +:+ version +:+ " -m venv " +:+ version +:+ "_venv")
                   (version +:+ "_venv") d
                   (create_venv_with_version run version d) ∧
  (if is_in_venv prefix base_prefix
   then resolve_venv_path executable prefix base_prefix run d
        = (Ok (resolve d executable), d)
   else outcome (to_string (resolve d executable) +:+ " -m venv venv")
                         "venv" d
                         (resolve_venv_path executable prefix base_prefix run d)).
Proof.
  split; [apply create_venv_with_version_outcome | apply resolve_venv_path_outcome].
Qed.

End ResolverFacts.

(** Witness of C8: a creation that exits with 0 and makes the directory. *)
Lemma resolver_outcomes_witness :
  (Utilities.create_venv_with_version
     ResolverHosts.run_directory_only "3.11" ResolverHosts.fresh_disk).1
  = Ok ResolverHosts.expected_interpreter.
Proof.
  pose proof (proj1 (resolver_outcomes ResolverHosts.home "" ""
                       ResolverHosts.run_directory_only "3.11"
                       ResolverHosts.fresh_disk)) as (_ & _ & _ & Hok).
  apply Hok. split; [reflexivity|]. split; vm_compute; reflexivity.
Defined.

(** C8 fails as stated: after a creation that exits with 0 and makes the
    directory of the environment, the resolver returns the path of an
    interpreter that does not exist, and raises nothing. *)
Lemma resolver_returns_missing_interpreter :
  let r := Utilities.create_venv_with_version
             ResolverHosts.run_directory_only "3.11" ResolverHosts.fresh_disk in
  r.1 = Ok ResolverHosts.expected_interpreter ∧
  Utilities.path_exists r.2 ResolverHosts.expected_interpreter = false.
Proof. split; vm_compute; reflexivity. Qed.

(** ** The displayed benchmark name *)

Lemma append_cons (c : ascii) (a b : string) :
  String c a +:+ b = String c (a +:+ b).
Proof. reflexivity. Qed.

Lemma lstrip_spec (chars s : string) :
  ∃ pre, s = pre +:+ PyStr.lstrip chars s ∧
         all_chars (fun c => PyStr.mem c chars) pre = true ∧
         in_set chars (head_char (PyStr.lstrip chars s)) = false.
Proof.
  induction s as [|c s (pre & Hs & Hpre & Hhead)].
  - by exists "".
  - cbn [PyStr.lstrip]. destruct (PyStr.mem c chars) eqn:Hc.
    + exists (String c pre). rewrite append_cons. cbn [all_chars].
      rewrite Hc, Hpre. split; [by f_equal | done].
    + exists "". cbn [all_chars head_char in_set]. by rewrite Hc.
Qed.

Lemma rstrip_spec (chars s : string) :
  ∃ post, s = PyStr.rstrip chars s +:+ post ∧
          all_chars (fun c => PyStr.mem c chars) post = true ∧
          in_set chars (last_char (PyStr.rstrip chars s)) = false.
Proof.
  induction s as [|c s (post & Hs & Hpost & Hlast)].
  - by exists "".
  - cbn [PyStr.rstrip]. destruct (PyStr.rstrip chars s) as [|c' r] eqn:Hr.
    + change ("" +:+ post) with post in Hs. destruct (PyStr.mem c chars) eqn:Hc.
      * exists (String c post). change ("" +:+ String c post) with (String c post).
        cbn [all_chars]. rewrite Hc, Hpost. split; [by f_equal | done].
      * exists post. rewrite append_cons. change ("" +:+ post) with post.
        cbn [last_char in_set]. rewrite Hc. split; [by f_equal | done].
    + exists post. rewrite append_cons. split; [by f_equal|]. split; [done|].
      by destruct r.
Qed.

(** Stripping on the right keeps the first character, unless nothing is
    left. *)
Lemma rstrip_head (chars s : string) :
  PyStr.rstrip chars s = "" ∨
  head_char (PyStr.rstrip chars s) = head_char s.
Proof.
  destruct s as [|c s]; [by left|]. cbn [PyStr.rstrip].
  destruct (PyStr.rstrip chars s); [|by right].
  destruct (PyStr.mem c chars); [by left | by right].
Qed.

Lemma strip_spec (chars s : string) :
  ∃ pre post,
    s = pre +:+ PyStr.strip chars s +:+ post ∧
    all_chars (fun c => PyStr.mem c chars) pre = true ∧
    all_chars (fun c => PyStr.mem c chars) post = true ∧
    in_set chars (head_char (PyStr.strip chars s)) = false ∧
    in_set chars (last_char (PyStr.strip chars s)) = false.
Proof.
  unfold PyStr.strip.
  destruct (lstrip_spec chars s) as (pre & Hs & Hpre & Hhead).
  destruct (rstrip_spec chars (PyStr.lstrip chars s)) as (post & Hl & Hpost & Hlast).
  exists pre, post. repeat split; try done.
  - by rewrite <- Hl.
  - destruct (rstrip_head chars (PyStr.lstrip chars s)) as [-> | ->]; done.
Qed.

Lemma from_path_benchmark_name (f : file) (bm : string) (b : Benchmark) :
  from_path f bm = Ok b → benchmark_name b = PyStr.strip "bm_" bm.
Proof.
  unfold from_path.
  destruct (negb (0 <? st_size f)); [done|].
  destruct (loaded f) as [doc|]; [|done].
  destruct (parse_file_name _) as [info|]; [|done]. cbn [mbind result_bind].
  destruct (parse_stats doc) as [s|]; [|done]. cbn [mbind result_bind].
  by intros [= <-].
Qed.

Lemma table_row_name (v : Z * Z) (b : Benchmark) (row : list string) :
  table_row v b = Ok row →
  row !! 0%nat = Some (benchmark_name b) ∧ row !! 3%nat = Some (version_label v).
Proof.
  unfold table_row.
  destruct (calculate_cpython_stats b); [|done].
  destruct (calculate_nuitka_stats b); [|done]. cbn [mbind result_bind].
  by intros [= <-].
Qed.

(** C10: the benchmark name of a record, which is the name its table row
    displays, is the directory name stripped of every leading and every
    trailing character among 'b', 'm' and '_', not of one "bm_" prefix:
    "bm_bench" gives "ench" and "bm_concurrent_imap" gives
    "concurrent_imap". *)
Theorem benchmark_name_is_stripped :
  (∀ f bm b, from_path f bm = Ok b → benchmark_name b = PyStr.strip "bm_" bm) ∧
  (∀ v b row, table_row v b = Ok row → row !! 0%nat = Some (benchmark_name b)) ∧
  (∀ bm, ∃ pre post,
      bm = pre +:+ PyStr.strip "bm_" bm +:+ post ∧
      all_chars (fun c => PyStr.mem c "bm_") pre = true ∧
      all_chars (fun c => PyStr.mem c "bm_") post = true ∧
      in_set "bm_" (head_char (PyStr.strip "bm_" bm)) = false ∧
      in_set "bm_" (last_char (PyStr.strip "bm_" bm)) = false) ∧
  PyStr.strip "bm_" "bm_bench" = "ench" ∧
  PyStr.strip "bm_" "bm_concurrent_imap" = "concurrent_imap".
Proof.
  split; [exact from_path_benchmark_name|].
  split; [intros v b row Hrow; apply (table_row_name v b row Hrow)|].
  split; [intros bm; apply strip_spec|].
  split; reflexivity.
Qed.

(** ** The aggregator *)

Lemma scan_date_records (bm : string) (results : list entry) (c : container) :
  scan_date bm results c = (bs ← date_records bm results; Ok (add_results bs c)).
Proof.
  revert c. induction results as [|[f|dn ch|sn] rest IH]; intros c;
    cbn [scan_date date_records]; [done | | by rewrite IH..].
  destruct (from_path f bm) as [b|e]; cbn [mbind result_bind]; [|done].
  rewrite IH. by destruct (date_records bm rest).
Qed.

Lemma add_results_app (bs bs' : list Benchmark) (c : container) :
  add_results (bs ++ bs') c = add_results bs' (add_results bs c).
Proof. apply foldl_app. Qed.

Lemma scan_results_records (bm : string) (dates : list entry) (c : container) :
  scan_results bm dates c = (bs ← results_records bm dates; Ok (add_results bs c)).
Proof.
  revert c. induction dates as [|[f|dn ch|sn] rest IH]; intros c;
    cbn [scan_results results_records]; [done | by rewrite IH | | by rewrite IH].
  rewrite scan_date_records.
  destruct (date_records bm ch) as [bs|e]; cbn [mbind result_bind]; [|done].
  rewrite IH. destruct (results_records bm rest); cbn [mbind result_bind]; [|done].
  by rewrite add_results_app.
Qed.

Lemma scan_benchmarks_records (items : list entry) (c : container) :
  scan_benchmarks items c = (bs ← benchmarks_records items; Ok (add_results bs c)).
Proof.
  revert c. induction items as [|item rest IH]; intros c;
    cbn [scan_benchmarks benchmarks_records]; [done|].
  destruct (is_dir item && negb (PyStr.startswith "bm_" (entry_name item)));
    [by rewrite IH|].
  destruct (iterdir (child item "results")) as [dates|e];
    cbn [mbind result_bind]; [|done].
  rewrite scan_results_records.
  destruct (results_records (entry_name item) dates) as [bs|e];
    cbn [mbind result_bind]; [|done].
  rewrite IH. destruct (benchmarks_records rest); cbn [mbind result_bind]; [|done].
  by rewrite add_results_app.
Qed.

(** The first loop groups the records it parses. *)
Lemma results_container_records (tree : option entry) :
  results_container tree = (bs ← parsed_records tree; Ok (add_results bs ∅)).
Proof.
  unfold results_container, parsed_records.
  destruct (iterdir tree) as [items|e]; cbn [mbind result_bind]; [|done].
  apply scan_benchmarks_records.
Qed.

Lemma add_result_lookup (b : Benchmark) (c : container) (v : Z * Z) :
  add_result b c !! v =
  if decide (python_version b = v)
  then Some (default [] (c !! v) ++ [b])
  else c !! v.
Proof.
  unfold add_result. destruct (decide (python_version b = v)) as [<-|Hne].
  - by rewrite lookup_insert_eq.
  - by rewrite lookup_insert_ne.
Qed.

(** A bucket holds the records of its version, in their order, after what
    it held before; a version without a record gets no bucket. *)
Lemma add_results_lookup (bs : list Benchmark) (c : container) (v : Z * Z) :
  add_results bs c !! v =
  match of_version v bs with
  | [] => c !! v
  | g => Some (default [] (c !! v) ++ g)
  end.
Proof.
  revert c. induction bs as [|b bs IH]; intros c; [done|].
  unfold add_results, of_version in *. cbn [foldl]. rewrite IH, add_result_lookup.
  rewrite filter_cons. destruct (decide (python_version b = v)) as [Hv|Hv].
  - destruct (filter _ bs) as [|b' g]; [done|].
    simpl. by rewrite <- app_assoc.
  - done.
Qed.

Lemma grouped_lookup (bs : list Benchmark) (v : Z * Z) :
  add_results bs ∅ !! v =
  match of_version v bs with
  | [] => None
  | g => Some g
  end.
Proof. rewrite add_results_lookup, lookup_empty. by destruct (of_version v bs). Qed.

Lemma elem_of_sorted_results (c : container) (v : Z * Z) (l : list Benchmark) :
  (v, l) ∈ sorted_results c ↔ c !! v = Some l.
Proof.
  unfold sorted_results. rewrite merge_sort_Permutation.
  apply elem_of_map_to_list.
Qed.

(** *** Version labels *)

Lemma nilempty_string_of_uint_inj (d d' : Decimal.uint) :
  NilEmpty.string_of_uint d = NilEmpty.string_of_uint d' → d = d'.
Proof.
  intros Heq. apply (f_equal NilEmpty.uint_of_string) in Heq.
  rewrite !NilEmpty.usu in Heq. by injection Heq.
Qed.

Lemma nilzero_string_of_uint_inj (d d' : Decimal.uint) :
  d ≠ Decimal.Nil → d' ≠ Decimal.Nil →
  NilZero.string_of_uint d = NilZero.string_of_uint d' → d = d'.
Proof.
  unfold NilZero.string_of_uint. intros Hd Hd' Heq.
  apply nilempty_string_of_uint_inj. by destruct d, d'.
Qed.

Lemma pos_label_inj (p q : positive) :
  NilZero.string_of_uint (Pos.to_uint p) = NilZero.string_of_uint (Pos.to_uint q) →
  p = q.
Proof.
  intros Heq. apply DecimalPos.Unsigned.to_uint_inj.
  apply nilzero_string_of_uint_inj;
    [apply DecimalPos.Unsigned.to_uint_nonnil.. | done].
Qed.

Lemma pos_label_not_zero (p : positive) :
  NilZero.string_of_uint (Pos.to_uint p) ≠ "0".
Proof.
  intros Heq. apply (DecimalPos.Unsigned.to_uint_nonzero p).
  apply nilzero_string_of_uint_inj;
    [apply DecimalPos.Unsigned.to_uint_nonnil | done | done].
Qed.

Lemma pos_label_head (p : positive) :
  ∃ c s, NilZero.string_of_uint (Pos.to_uint p) = String c s ∧ is_digit c = true.
Proof.
  unfold NilZero.string_of_uint.
  pose proof (DecimalPos.Unsigned.to_uint_nonnil p) as Hp.
  destruct (Pos.to_uint p); try done; cbn [NilEmpty.string_of_uint]; eauto.
Qed.

Lemma of_int_inj (n n' : Z) : PyStr.of_int n = PyStr.of_int n' → n = n'.
Proof.
  destruct n as [|p|p], n' as [|q|q]; cbn [PyStr.of_int]; intros Heq; try done.
  - by destruct (pos_label_not_zero q).
  - by destruct (pos_label_not_zero p).
  - f_equal. by apply pos_label_inj.
  - destruct (pos_label_head p) as (c & s & Hp & Hc). rewrite Hp in Heq.
    injection Heq as -> _. done.
  - destruct (pos_label_head q) as (c & s & Hq & Hc). rewrite Hq in Heq.
    injection Heq as <- _. done.
  - injection Heq as Heq. f_equal. by apply pos_label_inj.
Qed.

(** A label is split at its first point: the digits and the sign of an
    integer hold none. *)
Lemma append_point_inj (a a' b b' : string) :
  all_chars (fun c => negb (Ascii.eqb c ".")) a = true →
  all_chars (fun c => negb (Ascii.eqb c ".")) a' = true →
  a +:+ "." +:+ b = a' +:+ "." +:+ b' → a = a' ∧ b = b'.
Proof.
  assert (∀ x, "." +:+ x = String "." x) as Hpoint by reflexivity.
  assert (∀ x, "" +:+ x = x) as Hempty by reflexivity.
  rewrite !Hpoint.
  revert a'. induction a as [|c a IH]; intros [|c' a'] Ha Ha';
    rewrite ?append_cons, ?Hempty.
  - by intros [= ->].
  - intros [= <- _]. cbn [all_chars] in Ha'. by rewrite Ascii.eqb_refl in Ha'.
  - intros [= -> _]. cbn [all_chars] in Ha. by rewrite Ascii.eqb_refl in Ha.
  - cbn [all_chars] in Ha, Ha'.
    apply andb_true_iff in Ha as [_ Ha]. apply andb_true_iff in Ha' as [_ Ha'].
    intros [= -> Heq]. destruct (IH a' Ha Ha' Heq) as [-> ->]. done.
Qed.

Lemma of_int_no_point (n : Z) :
  all_chars (fun c => negb (Ascii.eqb c ".")) (PyStr.of_int n) = true.
Proof.
  assert (∀ c, PyStr.mem c "0123456789-" = true → negb (Ascii.eqb c ".") = true) as Himpl.
  { intros c Hc. destruct (Ascii.eqb_spec c ".") as [->|]; done. }
  assert (∀ c, is_digit c = true → PyStr.mem c "0123456789-" = true) as Hdigit.
  { intros c Hc.
    assert (PyStr.mem c "0123456789-" = is_digit c || PyStr.mem c "-") as ->
      by apply (mem_append c "0123456789" "-").
    by rewrite Hc. }
  assert (∀ p, all_chars (fun c => negb (Ascii.eqb c "."))
                 (NilZero.string_of_uint (Pos.to_uint p)) = true) as Hpos.
  { intros p. unfold NilZero.string_of_uint.
    destruct (Pos.to_uint p) eqn:Hp; try done;
      rewrite <- Hp; eapply all_chars_impl, string_of_uint_digits; eauto. }
  destruct n as [|p|p]; cbn [PyStr.of_int all_chars]; [done | apply Hpos |].
  by rewrite Hpos.
Qed.

Lemma version_label_inj (v v' : Z * Z) :
  version_label v = version_label v' → v = v'.
Proof.
  unfold version_label. destruct v as [a b], v' as [a' b']. cbn [fst snd].
  intros [Ha Hb]%append_point_inj; try apply of_int_no_point.
  by rewrite (of_int_inj _ _ Ha), (of_int_inj _ _ Hb).
Qed.

(** *** Tables *)

Lemma table_row_raise (v : Z * Z) (b : Benchmark) (e : exception) :
  table_row v b = Raise e → row_raises b e.
Proof.
  unfold table_row, row_raises.
  destruct (calculate_cpython_stats b); cbn [mbind result_bind].
  - destruct (calculate_nuitka_stats b); cbn [mbind result_bind]; [done|].
    intros [= ->]. by right.
  - intros [= ->]. by left.
Qed.

Lemma table_rows_ok (v : Z * Z) (bs : list Benchmark) (rs : list (list string)) :
  table_rows v bs = Ok rs → Forall2 (fun b row => table_row v b = Ok row) bs rs.
Proof.
  revert rs. induction bs as [|b bs IH]; intros rs; cbn [table_rows].
  - intros [= <-]. constructor.
  - destruct (table_row v b) as [r|] eqn:Hr; cbn [mbind result_bind]; [|done].
    destruct (table_rows v bs) as [rs'|]; cbn [mbind result_bind]; [|done].
    intros [= <-]. constructor; [done | by apply IH].
Qed.

Lemma table_rows_raise (v : Z * Z) (bs : list Benchmark) (e : exception) :
  table_rows v bs = Raise e → ∃ b, b ∈ bs ∧ table_row v b = Raise e.
Proof.
  induction bs as [|b bs IH]; cbn [table_rows]; [done|].
  destruct (table_row v b) as [r|e'] eqn:Hr; cbn [mbind result_bind].
  - destruct (table_rows v bs) as [rs'|e']; cbn [mbind result_bind]; [done|].
    intros [= ->]. destruct (IH eq_refl) as (b' & Hb' & Hraise).
    exists b'. split; [by right | done].
  - intros [= ->]. exists b. split; [by left | done].
Qed.

Lemma print_tables_printed (groups : list ((Z * Z) * list Benchmark)) (t : Table) :
  t ∈ (print_tables groups).1 →
  ∃ v bs, (v, bs) ∈ groups ∧ bench_table v bs = Ok t.
Proof.
  induction groups as [|[v bs] groups IH]; cbn [print_tables fst].
  - by intros ?%elem_of_nil.
  - destruct (bench_table v bs) as [t'|e] eqn:Ht; cbn [fst].
    + destruct (print_tables groups) as [printed outcome]. cbn [fst] in *.
      intros [->|Hin]%elem_of_cons.
      * exists v, bs. split; [by left | done].
      * destruct (IH Hin) as (v' & bs' & Hin' & Hok).
        exists v', bs'. split; [by right | done].
    + by intros ?%elem_of_nil.
Qed.

Lemma print_tables_raise (groups : list ((Z * Z) * list Benchmark)) (e : exception) :
  (print_tables groups).2 = Raise e →
  ∃ v bs, (v, bs) ∈ groups ∧ bench_table v bs = Raise e.
Proof.
  induction groups as [|[v bs] groups IH]; cbn [print_tables snd]; [done|].
  destruct (bench_table v bs) as [t'|e'] eqn:Ht; cbn [snd].
  - destruct (print_tables groups) as [printed outcome]. cbn [snd] in *.
    intros Hout. destruct (IH Hout) as (v' & bs' & Hin' & Hraise).
    exists v', bs'. split; [by right | done].
  - intros [= ->]. exists v, bs. split; [by left | done].
Qed.

Lemma of_version_nil (v : Z * Z) (bs : list Benchmark) :
  (∀ b, b ∈ bs → python_version b ≠ v) → of_version v bs = [].
Proof.
  unfold of_version. induction bs as [|b bs IH]; intros Habsent; [done|].
  rewrite filter_cons. destruct (decide (python_version b = v)) as [Hv|_].
  - destruct (Habsent b); [by left | done].
  - apply IH. intros b' Hb'. apply Habsent. by right.
Qed.

(** A bucket exists only for a version that has a record, and holds the
    records of that version. *)
Lemma bucket_nonempty (bs l : list Benchmark) (v : Z * Z) :
  add_results bs ∅ !! v = Some l → l = of_version v bs ∧ l ≠ [].
Proof.
  rewrite grouped_lookup. destruct (of_version v bs) as [|b g]; [done|].
  by intros [= <-].
Qed.

(** When the first loop raises, nothing is printed. *)
Lemma sampler_walk_raises (tree : option entry) (e : exception) :
  results_container tree = Raise e → sampler tree = ([], Raise e).
Proof. unfold sampler. by intros ->. Qed.

(** C9: for a Python version of which no result file was parsed, the
    grouping makes no bucket (a bucket exists only with a record of its
    version in it), no table is printed for it and no row bears its label;
    the script does not raise on its account: what it raises comes from a
    record that is there, and with no record at all it prints nothing and
    ends normally. *)
Theorem absent_version_has_no_table
    (tree : option entry) (records : list Benchmark) (v : Z * Z) :
  parsed_records tree = Ok records →
  (∀ b, b ∈ records → python_version b ≠ v) →
  (∃ c, results_container tree = Ok c ∧ c !! v = None ∧
        ∀ v' l, c !! v' = Some l → l = of_version v' records ∧ l ≠ []) ∧
  (∀ t, t ∈ (sampler tree).1 →
        rows t ≠ [] ∧
        ∀ row, row ∈ rows t → row !! 3%nat ≠ Some (version_label v)) ∧
  (∀ e, (sampler tree).2 = Raise e → ∃ b, b ∈ records ∧ row_raises b e) ∧
  (records = [] → sampler tree = ([], Ok tt)).
Proof.
  intros Hrecords Habsent.
  assert (results_container tree = Ok (add_results records ∅)) as Hc
    by by rewrite results_container_records, Hrecords.
  assert (add_results records ∅ !! v = None) as Hv
    by by rewrite grouped_lookup, (of_version_nil v records Habsent).
  unfold sampler. rewrite Hc.
  split; [|split; [|split]].
  - exists (add_results records ∅). split; [done|]. split; [done|].
    intros v' l. apply bucket_nonempty.
  - intros t (v' & bs & Hin%elem_of_sorted_results & Ht)%print_tables_printed.
    destruct (bucket_nonempty _ _ _ Hin) as [_ Hne].
    unfold bench_table in Ht.
    destruct (table_rows v' bs) as [rs|] eqn:Hrs; cbn [mbind result_bind] in Ht;
      [|done].
    injection Ht as <-. cbn [rows]. apply table_rows_ok in Hrs. split.
    + intros ->. apply Forall2_nil_inv_r in Hrs. done.
    + intros row Hrow Hlabel.
      apply list_elem_of_lookup in Hrow as [i Hi].
      destruct (Forall2_lookup_r _ _ _ _ _ Hrs Hi) as (b & Hb & Hb_row).
      apply table_row_name in Hb_row as [_ Hrow3].
      rewrite Hrow3 in Hlabel. injection Hlabel as Hlabel%version_label_inj.
      subst v'. congruence.
  - intros e (v' & bs & Hin%elem_of_sorted_results & Ht)%print_tables_raise.
    destruct (bucket_nonempty _ _ _ Hin) as [-> _].
    unfold bench_table in Ht.
    destruct (table_rows v' _) as [rs|e'] eqn:Hrs; cbn [mbind result_bind] in Ht;
      [done|].
    injection Ht as ->. apply table_rows_raise in Hrs as (b & Hb & Hraise).
    exists b. split; [|by eapply table_row_raise].
    unfold of_version in Hb. by apply list_elem_of_filter in Hb as [_ Hb].
  - intros ->. unfold sorted_results, add_results. cbn [foldl].
    by rewrite map_to_list_empty.
Qed.

(** Witness of C9: the results tree has records for 3.11 and 3.10 and none
    for 3.12. *)
Lemma absent_version_has_no_table_witness :
  parsed_records results_tree = Ok tree_records ∧
  (∀ b, b ∈ tree_records → python_version b ≠ (3, 12)) ∧
  (∀ t, t ∈ (sampler results_tree).1 →
        rows t ≠ [] ∧ ∀ row, row ∈ rows t → row !! 3%nat ≠ Some "3.12").
Proof.
  assert (∀ b, b ∈ tree_records → python_version b ≠ (3, 12)) as Habsent.
  { intros b Hb%list_elem_of_In. vm_compute in Hb.
    destruct Hb as [<-|[<-|[<-|[]]]]; intros [=]. }
  split; [reflexivity|]. split; [exact Habsent|].
  exact (proj1 (proj2 (absent_version_has_no_table
                         results_tree tree_records (3, 12) eq_refl Habsent))).
Defined.

Example sampler_example :
  sampler results_tree =
  ([{| title := "Benchmarks";
       columns := ["Benchmark"; "CPython"; "Nuitka Release"; "Python Version"];
       rows := [["ench"; "6.00"; "3.00"; "3.11"];
                ["concurrent_imap"; "6.00"; "3.00"; "3.11"]] |};
    {| title := "Benchmarks";
       columns := ["Benchmark"; "CPython"; "Nuitka Release"; "Python Version"];
       rows := [["ench"; "6.00"; "3.00"; "3.10"]] |}],
   Ok tt).
Proof. vm_compute. reflexivity. Qed.

(** Witness of C10: the record of a result file under [bm_bench]. *)
Lemma benchmark_name_is_stripped_witness :
  ∃ b, from_path (result_file "bench-nuitka1.3-3.11.json") "bm_bench" = Ok b ∧
       benchmark_name b = "ench".
Proof.
  eexists. split; [reflexivity|].
  exact (proj1 benchmark_name_is_stripped
           (result_file "bench-nuitka1.3-3.11.json") "bm_bench" _ eq_refl).
Defined.

(** The tables come newest version first. *)
Lemma sorted_results_sorted (c : container) : Sorted newer_first (sorted_results c).
Proof.
  apply Sorted_merge_sort. intros [[a1 a2] x] [[b1 b2] y].
  unfold newer_first, version_le. cbn [fst snd]. lia.
Qed.

(** * Further properties *)

(** ** Splitting and file names *)

Lemma split_nonempty (c : ascii) (s : string) : PyStr.split c s ≠ [].
Proof.
  destruct s as [|x s]; [done|]. cbn [PyStr.split].
  destruct (Ascii.eqb x c); [done|]. by destruct (PyStr.split c s).
Qed.

(** Splitting distributes over a separator. *)
Lemma split_append (c : ascii) (a b : string) :
  PyStr.split c (a +:+ String c b) = PyStr.split c a ++ PyStr.split c b.
Proof.
  induction a as [|x a IH].
  - change ("" +:+ String c b) with (String c b). cbn [PyStr.split].
    by rewrite Ascii.eqb_refl.
  - rewrite append_cons. cbn [PyStr.split]. rewrite IH.
    destruct (Ascii.eqb x c); [done|].
    pose proof (split_nonempty c a) as Hne.
    by destruct (PyStr.split c a).
Qed.

Lemma split_no_char (c : ascii) (s : string) :
  no_char c s = true → PyStr.split c s = [s].
Proof.
  unfold no_char. induction s as [|x s IH]; [done|].
  cbn [all_chars PyStr.split]. intros [Hx Hs]%andb_true_iff.
  apply negb_true_iff in Hx. by rewrite Hx, (IH Hs).
Qed.

Lemma length_split (c : ascii) (s : string) :
  length (PyStr.split c s) = S (count_char c s).
Proof.
  induction s as [|x s IH]; [done|]. cbn [PyStr.split count_char].
  destruct (Ascii.eqb x c).
  - cbn [length]. by rewrite IH.
  - pose proof (split_nonempty c s) as Hne.
    destruct (PyStr.split c s); [done|]. cbn [length] in *. by rewrite IH.
Qed.

(** X1: a stem that does not hold exactly two hyphens is rejected with a
    value error, whatever else it holds. *)
Theorem parse_file_name_two_hyphens (s : string) :
  count_char "-" s ≠ 2%nat → parse_file_name s = Raise ValueError.
Proof.
  intros Hcount. unfold parse_file_name.
  pose proof (length_split "-" s) as Hlen.
  destruct (PyStr.split "-" s) as [|a [|b [|c [|d l]]]]; try done.
  cbn [length] in Hlen. lia.
Qed.

(** Witness of X1: a target with a hyphen of its own. *)
Lemma parse_file_name_two_hyphens_witness :
  count_char "-" "my-bench-nuitka1.3-3.11" ≠ 2%nat ∧
  parse_file_name "my-bench-nuitka1.3-3.11" = Raise ValueError.
Proof.
  assert (count_char "-" "my-bench-nuitka1.3-3.11" ≠ 2%nat) as H by (cbn; lia).
  split; [exact H | exact (parse_file_name_two_hyphens _ H)].
Defined.

(** ** Reading back a printed integer *)


Lemma lstrip_id (chars s : string) :
  in_set chars (head_char s) = false → PyStr.lstrip chars s = s.
Proof. destruct s as [|c s]; [done|]. cbn. by intros ->. Qed.

Lemma rstrip_id (chars s : string) :
  in_set chars (last_char s) = false → PyStr.rstrip chars s = s.
Proof.
  induction s as [|c s IH]; [done|]. cbn [PyStr.rstrip last_char].
  destruct s as [|c' s'].
  - cbn. by intros ->.
  - intros Hlast. by rewrite (IH Hlast).
Qed.

Lemma last_char_all (P : ascii → bool) (s : string) :
  all_chars P s = true → s ≠ "" → ∃ c, last_char s = Some c ∧ P c = true.
Proof.
  induction s as [|c s IH]; [done|]. cbn [all_chars last_char].
  intros [Hc Hs]%andb_true_iff _. destruct s as [|c' s']; [eauto|].
  by apply IH.
Qed.

Lemma last_char_cons (c : ascii) (s : string) :
  s ≠ "" → last_char (String c s) = last_char s.
Proof. by destruct s. Qed.



Lemma digit_value_digit (n : nat) :
  (n < 10)%nat →
  PyStr.digit_value (ascii_of_nat (48 + n)) = Some (Z.of_nat n).
Proof.
  intros Hn. do 10 (destruct n as [|n]; [reflexivity|]). lia.
Qed.









(** ** Names of result files *)





Lemma no_char_append (c : ascii) (a b : string) :
  no_char c (a +:+ b) = no_char c a && no_char c b.
Proof. apply all_chars_append. Qed.








(** X3: components of the version after the second are ignored: a stem
    that parses still parses, to the same result, when a dot and any text
    without a hyphen is appended. *)
Theorem parse_file_name_ignores_patch (s extra : string)
    (r : string * string * (Z * Z)) :
  parse_file_name s = Ok r → no_char "-" extra = true →
  parse_file_name (s +:+ "." +:+ extra) = Ok r.
Proof.
  unfold parse_file_name. intros Hs Hextra.
  assert (∀ a b, PyStr.split "-" (a +:+ "." +:+ b)
                 = match PyStr.split "-" a, PyStr.split "-" b with
                   | [], _ | _, [] => []
                   | la, w :: ws => removelast la ++ (List.last la "" +:+ "." +:+ w) :: ws
                   end) as Hglue.
  { intros a b. induction a as [|x a IH].
    - change ("" +:+ "." +:+ b) with (String "." b). cbn [PyStr.split].
      change (Ascii.eqb "." "-") with false. cbv iota.
      pose proof (split_nonempty "-" b). by destruct (PyStr.split "-" b).
    - rewrite append_cons. cbn [PyStr.split]. rewrite IH.
      pose proof (split_nonempty "-" a) as Ha.
      pose proof (split_nonempty "-" b) as Hb.
      destruct (PyStr.split "-" b) as [|w ws]; [done|].
      destruct (Ascii.eqb x "-").
      + destruct (PyStr.split "-" a) as [|u us]; [done|]. done.
      + destruct (PyStr.split "-" a) as [|u [|u' us]]; [done | done | done]. }
  rewrite Hglue, (split_no_char "-" extra Hextra).
  destruct (PyStr.split "-" s) as [|t [|nv [|pv [|x l]]]]; try done.
  cbn [removelast List.last app].
  change (pv +:+ "." +:+ extra) with (pv +:+ String "." extra).
  rewrite split_append.
  destruct (PyStr.split "." pv) as [|v0 [|v1 l]]; try done.
  destruct (PyStr.int v0); done.
Qed.

(** Witness of X3: a patch level after the minor version. *)
Lemma parse_file_name_ignores_patch_witness :
  parse_file_name "target-nuitka1.3-3.11" = Ok ("target", "nuitka1.3", (3, 11)) ∧
  no_char "-" "2" = true ∧
  parse_file_name ("target-nuitka1.3-3.11" +:+ "." +:+ "2")
  = Ok ("target", "nuitka1.3", (3, 11)).
Proof.
  split; [reflexivity|]. split; [reflexivity|].
  exact (parse_file_name_ignores_patch "target-nuitka1.3-3.11" "2" _ eq_refl eq_refl).
Defined.

(** X4: a stem whose version has no minor part is rejected: with no dot in
    its last segment the parser raises, an index error when that segment is
    an integer and a value error when it is not. *)
Theorem parse_file_name_needs_minor (target nv pv : string) :
  no_char "-" target = true → no_char "-" nv = true → no_char "-" pv = true →
  no_char "." pv = true →
  parse_file_name (target +:+ "-" +:+ nv +:+ "-" +:+ pv)
  = match PyStr.int pv with
    | Ok _ => Raise IndexError
    | Raise e => Raise e
    end.
Proof.
  intros Ht Hnv Hpv Hdot. unfold parse_file_name.
  change ("-" +:+ nv +:+ "-" +:+ pv) with (String "-" (nv +:+ String "-" pv)).
  rewrite !split_append, !split_no_char by done. cbn [app].
  rewrite (split_no_char "." pv Hdot). by destruct (PyStr.int pv).
Qed.

(** Witness of X4: the version written without its dot. *)
Lemma parse_file_name_needs_minor_witness :
  no_char "-" "target" = true ∧ no_char "-" "nuitka1.3" = true ∧
  no_char "-" "311" = true ∧ no_char "." "311" = true ∧
  parse_file_name ("target" +:+ "-" +:+ "nuitka1.3" +:+ "-" +:+ "311")
  = Raise IndexError.
Proof.
  split; [reflexivity|]. split; [reflexivity|]. split; [reflexivity|].
  split; [reflexivity|].
  exact (parse_file_name_needs_minor "target" "nuitka1.3" "311"
           eq_refl eq_refl eq_refl eq_refl).
Defined.

(** ** More on the benchmark runner *)

Lemma eqb_sym (x y : float) : Float.eqb x y = Float.eqb y x.
Proof.
  apply eq_true_iff_eq. rewrite !eqb_rank. split; intros (a & ? & ?); eauto.
Qed.

Lemma ltb_eqb_l (x y z : float) :
  Float.eqb x y = true → Float.ltb x z = Float.ltb y z.
Proof.
  intros (a & Hx & Hy)%eqb_rank.
  apply eq_true_iff_eq. rewrite !ltb_rank.
  split; intros (a' & b & Ha' & Hb & Hlt); exists a, b; repeat split; congruence.
Qed.

Lemma ltb_nan_l (x y : float) : Float.eqb x x = false → Float.ltb x y = false.
Proof.
  intros Hx. destruct (Float.ltb x y) eqn:Hlt; [|done].
  apply ltb_rank in Hlt as (a & b & Ha & _ & _).
  assert (Float.eqb x x = true) by (apply eqb_rank; eauto). congruence.
Qed.

Section RunningMaximumMore.

Let step (cur y : float) : float := if Float.gtb y cur then y else cur.

Lemma running_max_above (x : float) (rest : list float) (cur : float) :
  Float.ltb x cur = true → Float.ltb x (fold_left step rest cur) = true.
Proof.
  revert cur. induction rest as [|y rest IH]; intros cur Hcur; [done|].
  cbn [fold_left]. apply IH. unfold step, Float.gtb.
  fold (Float.ltb cur y). destruct (Float.ltb cur y) eqn:Hy; [|done].
  by eapply ltb_trans.
Qed.

Lemma running_max_equal (x : float) (rest : list float) (cur : float) :
  Float.eqb cur x = true →
  Float.eqb (fold_left step rest cur) x =
  forallb (fun y => negb (Float.ltb x y)) rest.
Proof.
  revert cur. induction rest as [|y rest IH]; intros cur Hcur; [done|].
  cbn [fold_left forallb]. rewrite <- (ltb_eqb_l cur x y Hcur).
  unfold step at 2, Float.gtb. fold (Float.ltb cur y).
  destruct (Float.ltb cur y) eqn:Hy; cbn [negb andb].
  - rewrite eqb_sym. apply ltb_not_eqb, running_max_above.
    by rewrite <- (ltb_eqb_l cur x y Hcur).
  - by apply IH.
Qed.

Lemma running_max_nan (rest : list float) (cur : float) :
  Float.eqb cur cur = false → fold_left step rest cur = cur.
Proof.
  intros Hnan. induction rest as [|y rest IH]; [done|].
  cbn [fold_left]. unfold step at 2, Float.gtb. fold (Float.ltb cur y).
  by rewrite (ltb_nan_l cur y Hnan).
Qed.

(** The trim drops the first sample exactly when it is a number that no
    later sample exceeds; a tie with a later sample drops it too. *)
Lemma trim_warmup_spec (l : list float) :
  l ≠ [] →
  Utilities.trim_warmup l = Ok (if first_is_largest l then tl l else l).
Proof.
  destruct l as [|x rest]; [done|]. intros _.
  unfold Utilities.trim_warmup, Float.max, first_is_largest.
  cbn [mbind result_bind first hd tl]. fold step.
  destruct (Float.eqb x x) eqn:Hx; cbn [andb].
  - by rewrite running_max_equal.
  - by rewrite running_max_nan, Hx.
Qed.

End RunningMaximumMore.

Section RunnerMore.
Import Utilities RunnerFacts.

Variable h : host.
Variables cwd python_executable type : string.
Variable iterations : Z.

Abbreviation n := (Z.to_nat iterations).


(** X5: on a host whose runs all exit with 0, the runner returns the
    warm-up times without the first one exactly when that first time is a
    number that no later warm-up time exceeds (a tie drops it too), and all
    of them otherwise; the measured times are returned whole. *)
Theorem run_benchmark_trim (command : list string) :
  run_command cwd python_executable type = Ok command →
  (1 ≤ n)%nat →
  (∀ k, (k < 2 * n)%nat → exits_zero h command k) →
  run_benchmark h cwd python_executable iterations type 0%nat =
  (Ok {| warmup := if first_is_largest (sample h command <$> seq 0 n)
                   then tl (sample h command <$> seq 0 n)
                   else sample h command <$> seq 0 n;
         benchmark := sample h command <$> seq n n |},
   (2 * n)%nat).
Proof.
  intros Hcommand Hn Hok.
  destruct (run_benchmark_ok h cwd python_executable type iterations command
              Hcommand Hn Hok) as (ws & Htrim & ->).
  rewrite trim_warmup_spec in Htrim.
  - by injection Htrim as <-.
  - intros Hnil%(f_equal length). rewrite length_fmap, length_seq in Hnil.
    cbn in Hnil. lia.
Qed.

(** X6: the runner makes no run at all when the execution mode is neither
    "Nuitka" nor "CPython" (a key error) and, for a known mode, when the
    iteration count is not positive (a value error, from the maximum of an
    empty warm-up list). *)
Theorem run_benchmark_no_run :
  (type ≠ "Nuitka" → type ≠ "CPython" →
   run_benchmark h cwd python_executable iterations type 0%nat = (Raise KeyError, 0%nat))
  ∧ (type = "Nuitka" ∨ type = "CPython" → iterations ≤ 0 →
     run_benchmark h cwd python_executable iterations type 0%nat
     = (Raise ValueError, 0%nat)).
Proof.
  split.
  - intros H1%String.eqb_neq H2%String.eqb_neq.
    unfold run_benchmark, run_command. by rewrite H1, H2.
  - intros Htype Hiter. unfold run_benchmark.
    assert (∃ command, run_command cwd python_executable type = Ok command)
      as [command Hcommand].
    { unfold run_command. destruct Htype as [->| ->]; cbn; eauto. }
    rewrite bind_run. unfold lift at 1. rewrite Hcommand.
    replace n with 0%nat by lia. reflexivity.
Qed.


End RunnerMore.

(** Witness of X5: the first warm-up time ties with the second. *)
Lemma run_benchmark_trim_witness :
  let cmd := ["python"; "run_benchmark.py"] in
  Utilities.run_command "" "python" "CPython" = Ok cmd ∧
  (1 ≤ Z.to_nat 3)%nat ∧
  (∀ k, (k < 2 * Z.to_nat 3)%nat → exits_zero tied_host cmd k) ∧
  Utilities.run_benchmark tied_host "" "python" 3 "CPython" 0%nat =
  (Ok {| Utilities.warmup := [Float.of_Z 5; Float.of_Z 3];
         Utilities.benchmark := [Float.of_Z 1; Float.of_Z 1; Float.of_Z 1] |}, 6%nat).
Proof.
  assert (∀ k, (k < 2 * Z.to_nat 3)%nat →
               exits_zero tied_host ["python"; "run_benchmark.py"] k) as Hok.
  { intros k _. reflexivity. }
  split; [reflexivity|]. split; [cbn; lia|]. split; [exact Hok|].
  rewrite (run_benchmark_trim tied_host "" "python" "CPython" 3
             ["python"; "run_benchmark.py"] eq_refl ltac:(cbn; lia) Hok).
  reflexivity.
Defined.

(** Witness of X6: an unknown mode, and no iteration. *)
Lemma run_benchmark_no_run_witness :
  Utilities.run_benchmark tied_host "" "python" 3 "PyPy" 0%nat = (Raise KeyError, 0%nat) ∧
  Utilities.run_benchmark tied_host "" "python" 0 "CPython" 0%nat
  = (Raise ValueError, 0%nat).
Proof.
  split.
  - apply (proj1 (run_benchmark_no_run tied_host "" "python" "PyPy" 3)); discriminate.
  - apply (proj2 (run_benchmark_no_run tied_host "" "python" "CPython" 0));
      [by right | lia].
Defined.

(** ** Phases with one sample *)

Lemma one_sample_phase (n : string) (x : float) (l : list float) :
  Float.is_nan x = false →
  raises (_calculate_stats (stats_of n [x] l)) ∧
  raises (_calculate_stats (stats_of n l [x])).
Proof.
  intros Hx. unfold raises. rewrite !calculate_stats_value.
  assert (phase_mean [x] = None) as Hphase.
  { unfold phase_mean, is_minimum_of. cbn [forallb].
    destruct (rank_number x Hx) as [a Ha].
    assert (Float.eqb x x = true) as -> by (apply eqb_rank; eauto).
    by rewrite ltb_irrefl. }
  unfold representative. rewrite Hphase. split; [done|].
  by destruct (phase_mean l).
Qed.

(** X8: a phase that holds a single number cannot be aggregated: that
    sample is the minimum, it is dropped, and the mean of nothing raises;
    this holds for the warm-up and for the benchmark phase, whatever the
    other phase holds. *)
Theorem one_sample_phase_raises (n : string) (x : float) (l : list float) :
  Float.is_nan x = false →
  raises (_calculate_stats (stats_of n [x] l)) ∧
  raises (_calculate_stats (stats_of n l [x])).
Proof. apply one_sample_phase. Qed.

(** Witness of X8: one warm-up sample beside two benchmark samples. *)
Lemma one_sample_phase_raises_witness :
  Float.is_nan (Float.of_Z 1) = false ∧
  raises (_calculate_stats (stats_of "nuitka" [Float.of_Z 1] [Float.of_Z 4; Float.of_Z 2])).
Proof.
  split; [reflexivity|].
  exact (proj1 (one_sample_phase_raises "nuitka" (Float.of_Z 1)
                  [Float.of_Z 4; Float.of_Z 2] eq_refl)).
Defined.

Section SingleIteration.
Import Utilities RunnerFacts.

Variable h : host.
Variables cwd python_executable type : string.
Variable command : list string.
Hypothesis command_of_type : run_command cwd python_executable type = Ok command.

(** What the runner returns, when it returns. *)
Lemma run_benchmark_returns (iterations : Z) (t : timings) (k : nat) :
  run_benchmark h cwd python_executable iterations type 0%nat = (Ok t, k) →
  benchmark t = sample h command <$> seq (Z.to_nat iterations) (Z.to_nat iterations).
Proof.
  intros Hrun. unfold run_benchmark in Hrun. rewrite bind_run in Hrun.
  unfold lift at 1 in Hrun. rewrite command_of_type in Hrun.
  rewrite bind_run in Hrun.
  destruct (timed_loop h command (Z.to_nat iterations) [] 0%nat) as [[ws|e] k1] eqn:Hw;
    [|done].
  apply timed_loop_returns in Hw as [-> ->].
  rewrite bind_run in Hrun. unfold lift in Hrun.
  destruct (trim_warmup _) as [ws'|e]; [|done].
  rewrite bind_run in Hrun.
  destruct (timed_loop h command (Z.to_nat iterations) [] _) as [[bs|e] k2] eqn:Hb;
    [|done].
  apply timed_loop_returns in Hb as [-> ->].
  unfold mret, proc_ret in Hrun. by injection Hrun as <- <-.
Qed.

(** X9: timings recorded with a single iteration cannot be aggregated.
    When the runner returns from one iteration and its measured run took a
    time that is a number, the representative statistic of the returned
    lists raises. *)
Theorem single_iteration_unusable (n : string) (t : timings) (k : nat) :
  run_benchmark h cwd python_executable 1 type 0%nat = (Ok t, k) →
  Float.is_nan (sample h command 1) = false →
  raises (_calculate_stats (stats_of n (warmup t) (benchmark t))).
Proof.
  intros Hrun Hnumber. rewrite (run_benchmark_returns 1 t k Hrun).
  change (Z.to_nat 1) with 1%nat. cbn [seq fmap list_fmap].
  by apply one_sample_phase.
Qed.

End SingleIteration.

(** Witness of X9: one iteration on the tied host. *)
Lemma single_iteration_unusable_witness :
  let cmd := ["python"; "run_benchmark.py"] in
  let t := {| Utilities.warmup := []; Utilities.benchmark := [Float.of_Z 5] |} in
  Utilities.run_command "" "python" "CPython" = Ok cmd ∧
  Utilities.run_benchmark tied_host "" "python" 1 "CPython" 0%nat = (Ok t, 2%nat) ∧
  Float.is_nan (sample tied_host cmd 1) = false ∧
  raises (_calculate_stats (stats_of "cpython" (Utilities.warmup t) (Utilities.benchmark t))).
Proof.
  split; [reflexivity|]. split; [reflexivity|]. split; [reflexivity|].
  exact (single_iteration_unusable tied_host "" "python" "CPython"
           ["python"; "run_benchmark.py"] eq_refl "cpython" _ 2%nat eq_refl eq_refl).
Defined.

(** ** More on the comparison formatter *)

(** X10: the formatter raises exactly when its two values differ and the
    smaller one is a zero, and then with a division by zero; in every other
    case it returns a string. *)
Theorem format_raises_iff (nuitka cpython : float) (e : exception) :
  format_benchmark_stat nuitka cpython = Raise e ↔
  e = ZeroDivisionError ∧
  ((Float.ltb nuitka cpython = true ∧ Float.is_zero nuitka = true) ∨
   (Float.ltb cpython nuitka = true ∧ Float.is_zero cpython = true)).
Proof.
  unfold format_benchmark_stat, Float.truediv, Float.gtb.
  fold (Float.ltb cpython nuitka).
  destruct (Float.ltb nuitka cpython) eqn:Hlt.
  - assert (Float.ltb cpython nuitka = false) as Hgt.
    { apply not_true_is_false. intros Hgt.
      pose proof (ltb_trans _ _ _ Hlt Hgt) as Hxx. by rewrite ltb_irrefl in Hxx. }
    rewrite Hgt. destruct (Float.is_zero nuitka); cbn [mbind result_bind].
    + split; [intros [= <-]; auto | by intros [-> _]].
    + split; [done | intros [_ [[_ ?]|[? _]]]; done].
  - destruct (Float.ltb cpython nuitka) eqn:Hgt.
    + destruct (Float.is_zero cpython); cbn [mbind result_bind].
      * split; [intros [= <-]; auto | by intros [-> _]].
      * split; [done | intros [_ [[? _]|[_ ?]]]; done].
    + split; [done | intros [_ [[? _]|[? _]]]; done].
Qed.

(** Witness of X10: a zero beside a larger value. *)
Lemma format_raises_iff_witness :
  format_benchmark_stat Float.zero (Float.of_Z 8) = Raise ZeroDivisionError.
Proof.
  apply (format_raises_iff Float.zero (Float.of_Z 8) ZeroDivisionError).
  split; [reflexivity|]. left. split; reflexivity.
Defined.

(** X11: when either value is a NaN, no comparison holds and the formatter
    returns the bare nuitka value, without percentage or marker. *)
Theorem format_nan_is_bare (nuitka cpython : float) :
  Float.is_nan nuitka = true ∨ Float.is_nan cpython = true →
  format_benchmark_stat nuitka cpython = Ok (Float.format_2f nuitka).
Proof.
  intros Hnan. unfold format_benchmark_stat, Float.gtb, Float.ltb, SFltb.
  rewrite !compare_rank.
  destruct Hnan as [Hnan|Hnan]; [destruct nuitka | destruct cpython]; try done;
    cbn [rank]; by destruct (rank _).
Qed.

(** Witness of X11: a NaN for cpython. *)
Lemma format_nan_is_bare_witness :
  (Float.is_nan (Float.of_Z 8) = true ∨ Float.is_nan Float.nan = true) ∧
  format_benchmark_stat (Float.of_Z 8) Float.nan = Ok "8.00".
Proof.
  split; [by right|].
  exact (format_nan_is_bare (Float.of_Z 8) Float.nan (or_intror eq_refl)).
Defined.

(** ** More on parsing result files *)







(** ** More on the aggregator *)

Lemma scan_benchmarks_filter (items : list entry) (c : container) :
  scan_benchmarks items c
  = scan_benchmarks (List.filter (fun i => negb (skipped i)) items) c.
Proof.
  revert c. induction items as [|item items IH]; intros c; [done|].
  cbn [List.filter]. unfold skipped at 1.
  destruct (is_dir item && negb (PyStr.startswith "bm_" (entry_name item))) eqn:Hskip;
    cbn [negb scan_benchmarks]; rewrite Hskip; [apply IH|].
  destruct (iterdir _); cbn [mbind result_bind]; [|done].
  destruct (scan_results _ _ _); cbn [mbind result_bind]; [apply IH | done].
Qed.

Lemma scan_results_filter (bm : string) (dates : list entry) (c : container) :
  scan_results bm dates c = scan_results bm (List.filter is_dir dates) c.
Proof.
  revert c. induction dates as [|[f|dn ch|sn] dates IH]; intros c;
    cbn [List.filter is_dir scan_results]; [done | apply IH | | apply IH].
  destruct (scan_date bm ch c); cbn [mbind result_bind]; [apply IH | done].
Qed.

Lemma scan_date_filter (bm : string) (results : list entry) (c : container) :
  scan_date bm results c = scan_date bm (List.filter is_file results) c.
Proof.
  revert c. induction results as [|[f|dn ch|sn] results IH]; intros c;
    cbn [List.filter is_file scan_date]; [done | | apply IH..].
  destruct (from_path f bm); cbn [mbind result_bind]; [apply IH | done].
Qed.

(** X13: the first loop looks at nothing but what it needs.  Directories of
    the benchmarks directory whose name does not start with "bm_" can be
    removed, with all they hold, without changing the grouped records or
    the exception raised; so can what is not a directory under [results],
    and what is not a regular file under a date directory. *)
Theorem walk_ignores (d : string) (items : list entry) :
  results_container (Some (Directory d items))
  = results_container (Some (Directory d (List.filter (fun i => negb (skipped i)) items)))
  ∧ (∀ bm dates c,
       scan_results bm dates c = scan_results bm (List.filter is_dir dates) c)
  ∧ (∀ bm results c,
       scan_date bm results c = scan_date bm (List.filter is_file results) c).
Proof.
  split; [apply scan_benchmarks_filter|].
  split; [exact scan_results_filter | exact scan_date_filter].
Qed.

Lemma benchmarks_records_app (before after : list entry) :
  benchmarks_records (before ++ after)
  = (bs ← benchmarks_records before; bs' ← benchmarks_records after; Ok (bs ++ bs')).
Proof.
  induction before as [|item before IH]; cbn [app benchmarks_records].
  - by destruct (benchmarks_records after).
  - destruct (is_dir item && negb (PyStr.startswith "bm_" (entry_name item)));
      [done|].
    destruct (iterdir _); cbn [mbind result_bind]; [|done].
    destruct (results_records _ _); cbn [mbind result_bind]; [|done].
    rewrite IH. destruct (benchmarks_records before); cbn [mbind result_bind]; [|done].
    destruct (benchmarks_records after); cbn [mbind result_bind]; [|done].
    by rewrite app_assoc.
Qed.

(** X14: one benchmark directory without a [results] entry stops the whole
    report.  When the entries before it are walked without an exception, the
    script raises file-not-found at that directory and prints no table,
    whatever the other benchmarks hold. *)
Theorem missing_results_aborts (d name : string)
    (before after children : list entry) (records : list Benchmark) :
  PyStr.startswith "bm_" name = true →
  child (Directory name children) "results" = None →
  benchmarks_records before = Ok records →
  sampler (Some (Directory d (before ++ Directory name children :: after)))
  = ([], Raise FileNotFoundError).
Proof.
  intros Hname Hchild Hbefore. apply sampler_walk_raises.
  rewrite results_container_records. unfold parsed_records. cbn [iterdir mbind result_bind].
  rewrite benchmarks_records_app, Hbefore. cbn [mbind result_bind benchmarks_records].
  cbn [is_dir entry_name andb]. rewrite Hname. cbn [negb]. rewrite Hchild.
  reflexivity.
Qed.

(** Witness of X14: a benchmark that was never run, after one that was. *)
Lemma missing_results_aborts_witness :
  let measured :=
    Directory "bm_bench"
      [Directory "results"
         [Directory "2024-01-01"
            [RegularFile (result_file "bench-nuitka1.3-3.11.json")]]] in
  PyStr.startswith "bm_" "bm_new" = true ∧
  child (Directory "bm_new" [RegularFile (result_file "run_benchmark.py")]) "results"
  = None ∧
  (∃ records, benchmarks_records [measured] = Ok records) ∧
  sampler (Some (Directory "benchmarks"
                   ([measured] ++
                    Directory "bm_new" [RegularFile (result_file "run_benchmark.py")]
                    :: [])))
  = ([], Raise FileNotFoundError).
Proof.
  cbv zeta.
  split; [reflexivity|]. split; [reflexivity|]. split; [eexists; reflexivity|].
  eapply (missing_results_aborts "benchmarks" "bm_new" _ []
            [RegularFile (result_file "run_benchmark.py")]); reflexivity.
Defined.

(** *** Rows and records *)

Lemma bench_table_rows (v : Z * Z) (bs : list Benchmark) (t : Table) :
  bench_table v bs = Ok t →
  length (rows t) = length bs ∧
  Forall (fun row => length row = 4%nat ∧ row !! 3%nat = Some (version_label v)) (rows t).
Proof.
  unfold bench_table.
  destruct (table_rows v bs) as [rs|] eqn:Hrs; cbn [mbind result_bind]; [|done].
  intros [= <-]. cbn [rows]. apply table_rows_ok in Hrs. split.
  - symmetry. by eapply Forall2_length.
  - induction Hrs as [|b row bs rs Hrow _ IH]; constructor; [|done].
    unfold table_row in Hrow.
    destruct (calculate_cpython_stats b); [|done].
    destruct (calculate_nuitka_stats b); [|done]. cbn [mbind result_bind] in Hrow.
    by injection Hrow as <-.
Qed.

Lemma print_tables_prefix (groups : list ((Z * Z) * list Benchmark)) :
  Forall2 (fun g t => bench_table g.1 g.2 = Ok t)
          (take (length (print_tables groups).1) groups) (print_tables groups).1.
Proof.
  induction groups as [|[v bs] groups IH]; cbn [print_tables fst]; [constructor|].
  destruct (bench_table v bs) as [t|e] eqn:Ht; [|constructor].
  destruct (print_tables groups) as [printed outcome]. cbn [fst length take] in *.
  by constructor.
Qed.

Lemma print_tables_ok (groups : list ((Z * Z) * list Benchmark)) (tables : list Table) :
  print_tables groups = (tables, Ok tt) →
  Forall2 (fun g t => bench_table g.1 g.2 = Ok t) groups tables.
Proof.
  revert tables. induction groups as [|[v bs] groups IH]; intros tables;
    cbn [print_tables].
  - intros [= <-]. constructor.
  - destruct (bench_table v bs) as [t|e] eqn:Ht; [|done].
    destruct (print_tables groups) as [printed outcome].
    intros [= <- ->]. constructor; [done | by apply IH].
Qed.

Lemma bucket_sizes_add (b : Benchmark) (c : container) :
  sum_list_with (fun g => length g.2) (map_to_list (add_result b c))
  = S (sum_list_with (fun g => length g.2) (map_to_list c)).
Proof.
  unfold add_result. destruct (c !! python_version b) as [l|] eqn:Hl; cbn [default].
  - rewrite <- insert_delete_eq, map_to_list_insert by apply lookup_delete_eq.
    rewrite <- (map_to_list_delete c (python_version b) l Hl).
    cbn [sum_list_with snd]. rewrite length_app. cbn [length]. unfold id. lia.
  - rewrite map_to_list_insert by done. cbn [sum_list_with snd length app]. lia.
Qed.

Lemma bucket_sizes (bs : list Benchmark) (c : container) :
  sum_list_with (fun g => length g.2) (map_to_list (add_results bs c))
  = (length bs + sum_list_with (fun g => length g.2) (map_to_list c))%nat.
Proof.
  revert c. induction bs as [|b bs IH]; intros c; [done|].
  unfold add_results in *. cbn [foldl length]. rewrite IH, bucket_sizes_add. lia.
Qed.

(** X15: no record is lost or repeated between the two loops.  When the
    script ends normally, the printed tables hold as many rows as records
    were parsed, and every row has the four cells of the four columns. *)
Theorem every_record_one_row
    (tree : option entry) (records : list Benchmark) (tables : list Table) :
  parsed_records tree = Ok records →
  sampler tree = (tables, Ok tt) →
  row_count tables = length records ∧
  Forall (fun t => length (columns t) = 4%nat ∧
                   Forall (fun row => length row = 4%nat) (rows t)) tables.
Proof.
  intros Hrecords. unfold sampler.
  rewrite results_container_records, Hrecords. cbn [mbind result_bind].
  intros Hprinted%print_tables_ok. split.
  - transitivity (sum_list_with (fun g : (Z * Z) * list Benchmark => length g.2)
                    (sorted_results (add_results records ∅))).
    + unfold row_count. induction Hprinted as [|g t gs ts Ht _ IH]; [done|].
      cbn [sum_list_with]. rewrite IH.
      by destruct (bench_table_rows _ _ _ Ht) as [-> _].
    + unfold sorted_results. rewrite merge_sort_Permutation, bucket_sizes.
      rewrite map_to_list_empty. cbn. lia.
  - induction Hprinted as [|g t gs ts Ht _ IH]; constructor; [|done].
    destruct (bench_table_rows _ _ _ Ht) as [_ Hrows]. split.
    + unfold bench_table in Ht. destruct (table_rows _ _); [|done].
      cbn [mbind result_bind] in Ht. by injection Ht as <-.
    + eapply Forall_impl; [exact Hrows|]. by intros row [? _].
Qed.

(** Witness of X15: the three records of the results tree. *)
Lemma every_record_one_row_witness :
  ∃ tables, parsed_records results_tree = Ok tree_records ∧
            sampler results_tree = (tables, Ok tt) ∧
            row_count tables = 3%nat.
Proof.
  eexists. split; [reflexivity|]. split; [vm_compute; reflexivity|].
  exact (proj1 (every_record_one_row results_tree tree_records _ eq_refl
                  ltac:(vm_compute; reflexivity))).
Defined.

(** *** The order of the tables *)

#[local] Instance newer_first_trans : Transitive newer_first.
Proof.
  intros [[a1 a2] x] [[b1 b2] y] [[c1 c2] z].
  unfold newer_first, version_le. cbn [fst snd]. lia.
Qed.

#[local] Instance newer_first_total : Total newer_first.
Proof.
  intros [[a1 a2] x] [[b1 b2] y].
  unfold newer_first, version_le. cbn [fst snd]. lia.
Qed.

Lemma strongly_sorted_lookup {A} (R : relation A) (l : list A) (i j : nat) (x y : A) :
  StronglySorted R l → (i < j)%nat → l !! i = Some x → l !! j = Some y → R x y.
Proof.
  intros Hsorted. revert i j.
  induction Hsorted as [|a l Hl IH Ha]; intros i j Hij Hi Hj; [done|].
  destruct j as [|j]; [lia|]. destruct i as [|i].
  - injection Hi as <-. cbn in Hj. rewrite Forall_forall in Ha.
    apply Ha. by eapply list_elem_of_lookup_2.
  - cbn in Hi, Hj. apply (IH i j); [lia | done | done].
Qed.

(** X16: the tables are printed from the newest Python version to the
    oldest, one version per table.  Whatever the script prints, normally or
    before an exception, every row of a table bears a strictly newer
    version than every row of a later table. *)
Theorem tables_newest_first (tree : option entry) (i j : nat) (t1 t2 : Table)
    (r1 r2 : list string) :
  (i < j)%nat →
  (sampler tree).1 !! i = Some t1 → (sampler tree).1 !! j = Some t2 →
  r1 ∈ rows t1 → r2 ∈ rows t2 →
  ∃ v1 v2, r1 !! 3%nat = Some (version_label v1) ∧
           r2 !! 3%nat = Some (version_label v2) ∧
           version_lt v2 v1.
Proof.
  intros Hij. unfold sampler.
  destruct (results_container tree) as [c|e]; [|done].
  pose proof (print_tables_prefix (sorted_results c)) as Hprefix.
  intros H1 H2 Hr1 Hr2.
  destruct (Forall2_lookup_r _ _ _ _ _ Hprefix H1) as (g1 & Hg1 & Ht1).
  destruct (Forall2_lookup_r _ _ _ _ _ Hprefix H2) as (g2 & Hg2 & Ht2).
  apply lookup_take_Some in Hg1 as [Hg1 _]. apply lookup_take_Some in Hg2 as [Hg2 _].
  destruct (bench_table_rows _ _ _ Ht1) as [_ Hrows1].
  destruct (bench_table_rows _ _ _ Ht2) as [_ Hrows2].
  rewrite Forall_forall in Hrows1, Hrows2.
  exists g1.1, g2.1. split; [by apply Hrows1|]. split; [by apply Hrows2|].
  assert (newer_first g1 g2) as Horder.
  { eapply (strongly_sorted_lookup newer_first); [|exact Hij|exact Hg1|exact Hg2].
    apply StronglySorted_merge_sort; apply _. }
  assert (g1.1 ≠ g2.1) as Hdistinct.
  { intros Heq.
    assert (NoDup (sorted_results c).*1) as Hnodup.
    { unfold sorted_results. rewrite merge_sort_Permutation.
      apply NoDup_fst_map_to_list. }
    assert (i = j); [|lia].
    eapply (NoDup_lookup _ i j g1.1 Hnodup); rewrite list_lookup_fmap.
    - by rewrite Hg1.
    - by rewrite Hg2, Heq. }
  unfold newer_first, version_le in Horder. unfold version_lt.
  destruct g1 as [[a1 a2] x], g2 as [[b1 b2] y]. cbn [fst snd] in *.
  destruct (decide (a1 = b1)) as [->|]; [|lia].
  destruct (decide (a2 = b2)) as [->|]; [done | lia].
Qed.

(** Witness of X16: the tables of the results tree, 3.11 before 3.10. *)
Lemma tables_newest_first_witness :
  ∃ v1 v2, ["ench"; "6.00"; "3.00"; "3.11"] !! 3%nat = Some (version_label v1) ∧
           ["ench"; "6.00"; "3.00"; "3.10"] !! 3%nat = Some (version_label v2) ∧
           version_lt v2 v1.
Proof.
  eapply (tables_newest_first results_tree 0 1 _ _
            ["ench"; "6.00"; "3.00"; "3.11"] ["ench"; "6.00"; "3.00"; "3.10"]).
  - lia.
  - vm_compute. reflexivity.
  - vm_compute. reflexivity.
  - cbn [rows]. apply list_elem_of_In. cbn. auto.
  - cbn [rows]. apply list_elem_of_In. cbn. auto.
Defined.

(** ** The version listing *)

Lemma filter_allowed (l : list string) :
  Forall (fun v => ¬ In v Launcher.BLACKLIST) (List.filter Launcher.allowed l) ∧
  (length (List.filter Launcher.allowed l) ≤ length l)%nat.
Proof.
  induction l as [|v l [IH1 IH2]]; [split; [constructor | done]|].
  cbn [List.filter]. destruct (Launcher.allowed v) eqn:Hv.
  - split; [constructor; [|done] | cbn [length]; lia].
    unfold Launcher.allowed in Hv. apply negb_true_iff in Hv.
    intros Hin. assert (existsb (String.eqb v) Launcher.BLACKLIST = true); [|congruence].
    apply existsb_exists. exists v. split; [done | apply String.eqb_refl].
  - split; [done | cbn [length]; lia].
Qed.

Lemma length_split_lines (lines : list string) (resp : list (list string)) :
  Launcher.split_lines lines = Ok resp → length resp = length lines.
Proof.
  revert resp. induction lines as [|line lines IH]; intros resp;
    cbn [Launcher.split_lines]; [by intros [= <-]|].
  destruct (Launcher.split _ _); cbn [mbind result_bind]; [|done].
  destruct (Launcher.split_lines lines); cbn [mbind result_bind]; [|done].
  intros [= <-]. cbn [length]. by rewrite (IH _ eq_refl).
Qed.

(** X17: the version listing never returns a version of its blacklist, and
    returns at most one version per line of the launcher's output; on an
    empty output it raises an index error. *)
Theorem launcher_never_blacklisted :
  (∀ lines versions,
     Launcher.parse_py_launcher lines = Ok versions →
     Forall (fun v => ¬ In v Launcher.BLACKLIST) versions ∧
     (length versions ≤ length lines)%nat) ∧
  Launcher.parse_py_launcher [] = Raise IndexError.
Proof.
  split; [|reflexivity]. intros lines versions. unfold Launcher.parse_py_launcher.
  destruct (Launcher.split_lines lines) as [resp|] eqn:Hresp;
    cbn [mbind result_bind]; [|done].
  apply length_split_lines in Hresp.
  destruct resp as [|[|piece pieces] others]; cbn [mbind result_bind]; [done | done |].
  intros [= <-].
  destruct (filter_allowed
              (List.map Launcher.version_of
                 (if Launcher.contains "Active venv" piece then others
                  else (piece :: pieces) :: others))) as [Hnot Hlen].
  split; [done|]. rewrite length_map in Hlen. rewrite <- Hresp.
  destruct (Launcher.contains _ _); cbn [length] in *; lia.
Qed.

(** Witness of X17: a line for a blacklisted version, one for 3.11. *)
Lemma launcher_never_blacklisted_witness :
  Launcher.parse_py_launcher
    [" -V:3.12 *        Python 3.12 (64-bit)"; " -V:3.11          Python 3.11 (64-bit)"]
  = Ok ["3.11"] ∧
  Forall (fun v => ¬ In v Launcher.BLACKLIST) ["3.11"].
Proof.
  split; [reflexivity|].
  exact (proj1 (proj1 launcher_never_blacklisted
                  [" -V:3.12 *        Python 3.12 (64-bit)";
                   " -V:3.11          Python 3.11 (64-bit)"] ["3.11"] eq_refl)).
Defined.

(** *** Reading a listing back *)

Lemma append_assoc (a b c : string) : (a +:+ b) +:+ c = a +:+ (b +:+ c).
Proof. induction a as [|x a IH]; [done|]. rewrite !append_cons. by rewrite IH. Qed.

Lemma append_nil_r (a : string) : a +:+ "" = a.
Proof. induction a as [|x a IH]; [done|]. rewrite append_cons. by rewrite IH. Qed.

Lemma append_nonempty_r (a b : string) : b ≠ "" → a +:+ b ≠ "".
Proof. destruct a; [done|]. by rewrite append_cons. Qed.

Lemma last_char_append (a b : string) :
  b ≠ "" → last_char (a +:+ b) = last_char b.
Proof.
  intros Hb. induction a as [|x a IH]; [done|]. rewrite append_cons.
  rewrite last_char_cons by by apply append_nonempty_r. done.
Qed.

Lemma prefix_nil (s : string) : String.prefix "" s = true.
Proof. by destruct s. Qed.

Lemma prefix_cons_ne (a b : ascii) (s1 s2 : string) :
  a ≠ b → String.prefix (String a s1) (String b s2) = false.
Proof. intros Hab. cbn [String.prefix]. by destruct (ascii_dec a b). Qed.

Lemma prefix_head_absent (c : ascii) (sub s : string) :
  no_char c s = true → String.prefix (String c sub) s = false.
Proof.
  destruct s as [|x s]; [done|]. unfold no_char. cbn [all_chars].
  intros [Hx _]%andb_true_iff. apply negb_true_iff, Ascii.eqb_neq in Hx.
  apply prefix_cons_ne. congruence.
Qed.

Lemma no_char_tail (c x : ascii) (s : string) :
  no_char c (String x s) = true → x ≠ c ∧ no_char c s = true.
Proof.
  unfold no_char. cbn [all_chars]. intros [Hx Hs]%andb_true_iff.
  by apply negb_true_iff, Ascii.eqb_neq in Hx.
Qed.

Lemma no_char_cons (c x : ascii) (s : string) :
  x ≠ c → no_char c s = true → no_char c (String x s) = true.
Proof.
  intros Hx Hs. unfold no_char in *. cbn [all_chars]. rewrite Hs.
  by destruct (Ascii.eqb_spec x c).
Qed.

(** The first piece of a split is what stands before the first separator. *)
Lemma split_python (x r : string) :
  no_char "P" x = true →
  Launcher.split_from "Python" 0 (x +:+ "Python" +:+ r)
  = x :: Launcher.split_from "Python" 0 r.
Proof.
  induction x as [|c x IH]; intros Hx.
  - change ("" +:+ "Python" +:+ r)
      with (String "P" (String "y" (String "t" (String "h" (String "o" (String "n" r)))))).
    cbn. by rewrite prefix_nil.
  - apply no_char_tail in Hx as [Hc Hx]. rewrite append_cons.
    cbn [Launcher.split_from]. rewrite prefix_cons_ne by congruence.
    by rewrite (IH Hx).
Qed.

Lemma contains_absent (c : ascii) (sub s : string) :
  no_char c s = true → Launcher.contains (String c sub) s = false.
Proof.
  induction s as [|x s IH]; intros Hs; [done|].
  cbn [Launcher.contains]. rewrite (prefix_head_absent c sub _ Hs).
  apply no_char_tail in Hs as [_ Hs]. by apply IH.
Qed.

Lemma rstrip_all (chars b : string) :
  all_chars (fun c => PyStr.mem c chars) b = true → PyStr.rstrip chars b = "".
Proof.
  induction b as [|c b IH]; [done|]. cbn [all_chars PyStr.rstrip].
  intros [Hc Hb]%andb_true_iff. by rewrite (IH Hb), Hc.
Qed.

Lemma rstrip_append_all (chars a b : string) :
  all_chars (fun c => PyStr.mem c chars) b = true →
  PyStr.rstrip chars (a +:+ b) = PyStr.rstrip chars a.
Proof.
  intros Hb. induction a as [|c a IH]; [by apply rstrip_all|].
  rewrite append_cons. cbn [PyStr.rstrip]. by rewrite IH.
Qed.

Lemma rstrip_keeps (chars a b : string) :
  a ≠ "" → in_set chars (last_char a) = false →
  ∃ r, PyStr.rstrip chars (a +:+ b) = a +:+ r.
Proof.
  induction a as [|c a IH]; [done|]. intros _ Hlast.
  rewrite append_cons. cbn [PyStr.rstrip]. destruct a as [|c' a'].
  - change ("" +:+ b) with b. cbn [last_char in_set] in Hlast.
    destruct (PyStr.rstrip chars b) as [|x r].
    + rewrite Hlast. by exists "".
    + by exists (String x r).
  - destruct (IH ltac:(done) Hlast) as [r ->].
    exists r. by rewrite append_cons.
Qed.

Lemma replace_absent (c : ascii) (old new s : string) :
  no_char c s = true → Launcher.replace_from (String c old) new 0 s = s.
Proof.
  induction s as [|x s IH]; intros Hs; [done|].
  cbn [Launcher.replace_from]. rewrite (prefix_head_absent c old _ Hs).
  apply no_char_tail in Hs as [_ Hs]. by rewrite (IH Hs).
Qed.

Lemma replace_mark (v : string) (a : bool) :
  no_char " " v = true → Launcher.replace " *" "" (v +:+ mark a) = v.
Proof.
  unfold Launcher.replace. induction v as [|x v IH]; intros Hv.
  - by destruct a.
  - apply no_char_tail in Hv as [Hx Hv]. rewrite append_cons.
    cbn [Launcher.replace_from]. rewrite prefix_cons_ne by congruence.
    by rewrite (IH Hv).
Qed.

Lemma blanks_space (k : nat) :
  all_chars (fun c => PyStr.mem c Launcher.space_chars) (blanks k) = true.
Proof. induction k as [|k IH]; [done|]. cbn [blanks all_chars]. by rewrite IH. Qed.

Lemma blanks_no_char (c : ascii) (k : nat) : c ≠ " "%char → no_char c (blanks k) = true.
Proof.
  intros Hc. unfold no_char. induction k as [|k IH]; [done|].
  cbn [blanks all_chars]. rewrite IH.
  destruct (Ascii.eqb_spec " " c); [congruence | done].
Qed.

Lemma plain_tag_no_char (c : ascii) (v : string) :
  PyStr.mem c Launcher.space_chars || PyStr.mem c "-PA" = true →
  plain_tag v = true → no_char c v = true.
Proof.
  intros Hc. apply all_chars_impl. intros x Hx. apply negb_true_iff, Ascii.eqb_neq.
  intros ->. apply andb_true_iff in Hx as [H1%negb_true_iff H2%negb_true_iff].
  by rewrite H1, H2 in Hc.
Qed.

Lemma plain_tag_last (v : string) :
  plain_tag v = true → in_set Launcher.space_chars (last_char v) = false.
Proof.
  intros Hv. destruct v as [|c v]; [done|].
  destruct (last_char_all _ _ Hv ltac:(done)) as (l & -> & Hl).
  by apply andb_true_iff in Hl as [Hl%negb_true_iff _].
Qed.

(** What the function makes of one line of the listing. *)
Lemma listing_line_pieces (e : listing) :
  plain_tag (tag e) = true →
  ∃ pieces,
    Launcher.split "Python" (Launcher.strip (listing_line e)) = Ok pieces ∧
    Launcher.contains "Active venv" (hd "" pieces) = false ∧
    pieces ≠ [] ∧
    Launcher.version_of pieces = tag e.
Proof.
  intros Hv. destruct e as [v a k d]. cbn [tag active padding description] in *.
  pose proof (plain_tag_no_char "-" v eq_refl Hv) as Hhyphen.
  pose proof (plain_tag_no_char "P" v eq_refl Hv) as HP.
  pose proof (plain_tag_no_char "A" v eq_refl Hv) as HA.
  pose proof (plain_tag_no_char " " v eq_refl Hv) as Hblank.
  set (y := "-V:" +:+ v +:+ mark a).
  set (x := y +:+ blanks k).
  assert (∀ c, c ≠ " "%char → c ≠ "-"%char → c ≠ "V"%char → c ≠ ":"%char →
               c ≠ "*"%char → no_char c v = true → no_char c x = true) as Hx.
  { intros c H1 H2 H3 H4 H5 Hc. unfold x, y. rewrite !no_char_append, Hc.
    rewrite blanks_no_char by done.
    assert (no_char c "-V:" = true) as ->
      by (repeat (apply no_char_cons; [congruence|]); reflexivity).
    assert (no_char c (mark a) = true) as ->; [|done].
    destruct a; [|done]. cbn [mark].
    repeat (apply no_char_cons; [congruence|]); reflexivity. }
  assert (Launcher.strip (listing_line {| tag := v; active := a; padding := k;
                                          description := d |})
          = PyStr.rstrip Launcher.space_chars ((x +:+ "Python") +:+ d)) as ->.
  { unfold x, y. rewrite !append_assoc. reflexivity. }
  destruct (rstrip_keeps Launcher.space_chars (x +:+ "Python") d) as [r ->].
  { by apply append_nonempty_r. }
  { by rewrite last_char_append. }
  rewrite append_assoc. exists (x :: Launcher.split_from "Python" 0 r).
  split. { cbn [Launcher.split]. by rewrite split_python by (by apply Hx). }
  split. { cbn [hd]. apply contains_absent. by apply Hx. }
  split; [done|].
  unfold Launcher.version_of. cbn [hd].
  assert (Launcher.strip x = y) as ->.
  { unfold Launcher.strip, PyStr.strip, x.
    rewrite lstrip_id by reflexivity.
    rewrite rstrip_append_all by apply blanks_space.
    apply rstrip_id. unfold y. destruct a; cbn [mark].
    - rewrite <- !append_assoc. by rewrite last_char_append.
    - rewrite append_nil_r. destruct v as [|c v']; [reflexivity|].
      rewrite last_char_append by done. by apply plain_tag_last. }
  assert (Launcher.replace "-V:" "" y = v +:+ mark a) as ->.
  { unfold Launcher.replace, y.
    change ("-V:" +:+ v +:+ mark a)
      with (String "-" (String "V" (String ":" (v +:+ mark a)))).
    cbn. rewrite prefix_nil. change ("" +:+ ?s) with s.
    apply replace_absent. rewrite no_char_append, Hhyphen. by destruct a. }
  by apply replace_mark.
Qed.

Lemma split_lines_listing (entries : list listing) :
  Forall (fun e => plain_tag (tag e) = true) entries →
  ∃ resp,
    Launcher.split_lines (listing_line <$> entries) = Ok resp ∧
    List.map Launcher.version_of resp = tag <$> entries ∧
    Forall (fun pieces => pieces ≠ [] ∧
                          Launcher.contains "Active venv" (hd "" pieces) = false) resp.
Proof.
  induction 1 as [|e entries He _ (resp & Hresp & Hversions & Hheads)].
  - exists []. done.
  - destruct (listing_line_pieces e He) as (pieces & Hpieces & Hhead & Hne & Hversion).
    exists (pieces :: resp). cbn [fmap list_fmap Launcher.split_lines].
    change (list_fmap listing string listing_line entries) with (listing_line <$> entries).
    rewrite Hpieces, Hresp. cbn [mbind result_bind List.map].
    rewrite Hversion, Hversions. split; [done|]. split; [done|].
    constructor; done.
Qed.

(** X18: the listing is read back.  From lines of the form
    [ -V:<tag>], an optional [ *] for the active version, blanks,
    [Python] and any description, where no tag holds white space, ['-'],
    ['P'] or ['A'], the function returns the tags in their order, without
    those of the blacklist. *)
Theorem launcher_reads_listing (entries : list listing) :
  entries ≠ [] →
  Forall (fun e => plain_tag (tag e) = true) entries →
  Launcher.parse_py_launcher (listing_line <$> entries)
  = Ok (List.filter Launcher.allowed (tag <$> entries)).
Proof.
  intros Hne (resp & Hresp & Hversions & Hheads)%split_lines_listing.
  unfold Launcher.parse_py_launcher. rewrite Hresp. cbn [mbind result_bind].
  destruct resp as [|first_line others].
  { by destruct entries. }
  apply Forall_cons in Hheads as [[Hfirst Hhead] _].
  destruct first_line as [|piece pieces]; [done|]. cbn [hd] in Hhead.
  rewrite Hhead. cbn [mbind result_bind]. by rewrite Hversions.
Qed.

(** Witness of X18: the active 3.12, which is blacklisted, and 3.11. *)
Lemma launcher_reads_listing_witness :
  let entries :=
    [{| tag := "3.12"; active := true; padding := 8; description := " 3.12 (64-bit)" |};
     {| tag := "3.11"; active := false; padding := 10; description := " 3.11 (64-bit)" |}] in
  entries ≠ [] ∧
  Forall (fun e => plain_tag (tag e) = true) entries ∧
  listing_line <$> entries
  = [" -V:3.12 *        Python 3.12 (64-bit)"; " -V:3.11          Python 3.11 (64-bit)"] ∧
  Launcher.parse_py_launcher (listing_line <$> entries) = Ok ["3.11"].
Proof.
  intros entries.
  assert (entries ≠ []) as Hne by discriminate.
  assert (Forall (fun e => plain_tag (tag e) = true) entries) as Hplain
    by repeat constructor.
  split; [exact Hne|]. split; [exact Hplain|]. split; [reflexivity|].
  rewrite (launcher_reads_listing entries Hne Hplain). reflexivity.
Defined.

(** X19: a first line that announces an active virtual environment is not
    a version.  When the text before the first "Python" of the first line
    holds "Active venv", that line is left out and the listing lines after
    it are read as usual; with nothing after it the result is empty, not an
    error. *)
Theorem launcher_drops_header (header : string) (entries : list listing) :
  Launcher.contains "Active venv"
    (hd "" (Launcher.split_from "Python" 0 (Launcher.strip header))) = true →
  Forall (fun e => plain_tag (tag e) = true) entries →
  Launcher.parse_py_launcher (header :: (listing_line <$> entries))
  = Ok (List.filter Launcher.allowed (tag <$> entries)).
Proof.
  intros Hheader (resp & Hresp & Hversions & _)%split_lines_listing.
  unfold Launcher.parse_py_launcher. cbn [Launcher.split_lines Launcher.split].
  rewrite Hresp. cbn [mbind result_bind].
  destruct (Launcher.split_from "Python" 0 (Launcher.strip header)) as [|piece pieces] eqn:Hsplit.
  { by cbn in Hheader. }
  cbn [hd] in Hheader. rewrite Hheader. cbn [mbind result_bind]. by rewrite Hversions.
Qed.

(** Witness of X19: the header the launcher prints inside an environment. *)
Lemma launcher_drops_header_witness :
  let header := "  *               Active venv" in
  let entries :=
    [{| tag := "3.11"; active := false; padding := 10; description := " 3.11 (64-bit)" |}] in
  Launcher.contains "Active venv"
    (hd "" (Launcher.split_from "Python" 0 (Launcher.strip header))) = true ∧
  Forall (fun e => plain_tag (tag e) = true) entries ∧
  Launcher.parse_py_launcher (header :: (listing_line <$> entries)) = Ok ["3.11"].
Proof.
  intros header entries.
  assert (Forall (fun e => plain_tag (tag e) = true) entries) as Hplain
    by repeat constructor.
  split; [reflexivity|]. split; [exact Hplain|].
  rewrite (launcher_drops_header header entries eq_refl Hplain). reflexivity.
Defined.

(** ** The two trims together *)


